(** * Scraping, retry and cache logic of the ZMG dashboard

    Shallow embedding of the extraction and fallback layer of
    [src/environment/data.py], of the news summarisation helpers of
    [src/chivas/data.py] and [src/environment/data.py], and of the daily
    file cache of [src/utils.py].

    Python strings are sequences of code points; they are modelled as
    [list Z].  Source literals written as Rocq strings (UTF-8 bytes) are
    decoded with [u].  The Python [re] patterns used by the code are
    translated into a small backtracking regular-expression matcher with
    Python's leftmost, greedy/lazy priority and capture groups. *)

From Stdlib Require Import ZArith Lia Bool.
From stdpp Require Import base list gmap strings.
Import ListNotations.
Open Scope Z_scope.

(* ------------------------------------------------------------------ *)
(** ** Text: code points *)

Abbreviation ustr := (list Z).

(** UTF-8 decoding of Rocq string literals (one- and two-byte sequences,
    enough for the Latin-1 letters used by the code). *)
Fixpoint u (s : string) : ustr :=
  match s with
  | EmptyString => []
  | String a rest =>
      let b := Z.of_nat (Ascii.nat_of_ascii a) in
      if b <? 128 then b :: u rest
      else match rest with
           | String a2 r2 =>
               ((b - 192) * 64 + (Z.of_nat (Ascii.nat_of_ascii a2) - 128)) :: u r2
           | EmptyString => [b]
           end
  end.

Definition is_digit (c : Z) : bool := (48 <=? c) && (c <=? 57).

(** Python's [\s] on [str]: the Unicode white-space code points. *)
Definition is_space (c : Z) : bool :=
  ((9 <=? c) && (c <=? 13)) || ((28 <=? c) && (c <=? 32)) || (c =? 133)
  || (c =? 160) || (c =? 5760) || ((8192 <=? c) && (c <=? 8202))
  || (c =? 8232) || (c =? 8233) || (c =? 8239) || (c =? 8287) || (c =? 12288).

(** [str.lower] on ASCII and Latin-1 capitals. *)
Definition lower (c : Z) : Z :=
  if (65 <=? c) && (c <=? 90) then c + 32
  else if (192 <=? c) && (c <=? 222) && negb (c =? 215) then c + 32
  else c.

Definition lower_s (s : ustr) : ustr := map lower s.

Definition is_ascii_letter (c : Z) : bool :=
  ((65 <=? c) && (c <=? 90)) || ((97 <=? c) && (c <=? 122)).

(** Python's [\w] (word characters) restricted to Latin-1. *)
Definition is_word (c : Z) : bool :=
  is_ascii_letter c || is_digit c || (c =? 95)
  || ((192 <=? c) && (c <=? 255) && negb (c =? 215) && negb (c =? 247))
  || (c =? 170) || (c =? 181) || (c =? 186).

(** [str.strip()] *)
Definition lstrip (s : ustr) : ustr :=
  (fix go s := match s with c :: r => if is_space c then go r else s | [] => [] end) s.
Definition strip (s : ustr) : ustr := rev (lstrip (rev (lstrip s))).

(** [sub in s] for strings *)
Fixpoint is_prefix (p s : ustr) : bool :=
  match p, s with
  | [], _ => true
  | a :: p', b :: s' => (a =? b) && is_prefix p' s'
  | _, [] => false
  end.
Fixpoint contains (p s : ustr) : bool :=
  match s with
  | [] => is_prefix p []
  | _ :: s' => is_prefix p s || contains p s'
  end.

(** [int(s)] on a string of ASCII digits *)
Definition int_of (s : ustr) : Z := fold_left (fun acc c => acc * 10 + (c - 48)) s 0.

(** Decimal rendering of a non-negative integer (Python [str(n)]). *)
Fixpoint digits_aux (fuel : nat) (n : Z) (acc : ustr) : ustr :=
  match fuel with
  | O => acc
  | S f => if n <? 10 then (48 + n) :: acc
           else digits_aux f (n / 10) ((48 + n mod 10) :: acc)
  end.
Definition show_nat (n : Z) : ustr := digits_aux 20 n [].

(** [f"{n:02d}"] *)
Definition pad2 (n : Z) : ustr := if (0 <=? n) && (n <? 10) then 48 :: show_nat n else show_nat n.

(* ------------------------------------------------------------------ *)
(** ** A backtracking matcher for the [re] patterns of the code *)

Inductive rx : Type :=
| RChar (p : Z -> bool)          (* one code point satisfying [p] *)
| REps
| RSeq (a b : rx)
| RAlt (a b : rx)                (* [a|b], left branch first *)
| RStar (greedy : bool) (a : rx) (* [a*] when greedy, [a*?] otherwise *)
| RGroup (n : nat) (a : rx)      (* capture group number [n] *)
| RBol                           (* [^] under [re.MULTILINE] *)
| REol (multiline : bool)        (* [$] *)
| RWordB.                        (* [\b] *)

Fixpoint rx_size (r : rx) : nat :=
  match r with
  | RSeq a b | RAlt a b => S (rx_size a + rx_size b)
  | RStar _ a | RGroup _ a => S (rx_size a)
  | _ => 1%nat
  end.

Abbreviation caps := (list (nat * (nat * nat))).

Section Matcher.
Variable txt : ustr.

Definition at_ (i : nat) : option Z := nth_error txt i.

Definition is_word_at (i : nat) : bool :=
  match at_ i with Some c => is_word c | None => false end.

Definition eol_ok (ml : bool) (i : nat) : bool :=
  match at_ i with
  | None => true
  | Some 10 => if ml then true else Nat.eqb (S i) (length txt)
  | Some _ => false
  end.

Fixpoint mt (fuel : nat) (r : rx) (i : nat) (cs : caps)
         (k : nat -> caps -> option (nat * caps)) : option (nat * caps) :=
  match fuel with
  | O => None
  | S f =>
    match r with
    | RChar p => match at_ i with
                 | Some c => if p c then k (S i) cs else None
                 | None => None
                 end
    | REps => k i cs
    | RSeq a b => mt f a i cs (fun j cs' => mt f b j cs' k)
    | RAlt a b => match mt f a i cs k with
                  | Some x => Some x
                  | None => mt f b i cs k
                  end
    | RStar true a =>
        match mt f a i cs (fun j cs' => if Nat.eqb j i then None
                                        else mt f (RStar true a) j cs' k) with
        | Some x => Some x
        | None => k i cs
        end
    | RStar false a =>
        match k i cs with
        | Some x => Some x
        | None => mt f a i cs (fun j cs' => if Nat.eqb j i then None
                                            else mt f (RStar false a) j cs' k)
        end
    | RGroup n a => mt f a i cs (fun j cs' => k j ((n, (i, j)) :: cs'))
    | RBol => match i with
              | O => k i cs
              | S i' => if bool_decide (at_ i' = Some 10) then k i cs else None
              end
    | REol ml => if eol_ok ml i then k i cs else None
    | RWordB =>
        let before := match i with O => false | S i' => is_word_at i' end in
        if Bool.eqb before (is_word_at i) then None else k i cs
    end
  end.

Definition match_at (r : rx) (i : nat) : option (nat * caps) :=
  mt (S (length txt) * S (rx_size r) + 2) r i [] (fun j cs => Some (j, cs)).

(** [re.search] from position [i]: the leftmost match, as
    (start, end, captures). *)
Fixpoint search_from (n : nat) (r : rx) (i : nat) : option (nat * nat * caps) :=
  match match_at r i with
  | Some (j, cs) => Some (i, j, cs)
  | None => match n with O => None | S n' => search_from n' r (S i) end
  end.

Definition search (r : rx) : option (nat * nat * caps) :=
  search_from (length txt) r 0.

(** [re.findall]: the captures of successive non-overlapping matches. *)
Fixpoint findall_from (n : nat) (r : rx) (i : nat) : list caps :=
  match n with
  | O => []
  | S n' =>
    match search_from (length txt - i) r i with
    | None => []
    | Some (s, e, cs) => cs :: findall_from n' r (if Nat.eqb e s then S e else e)
    end
  end.

Definition findall (r : rx) : list caps := findall_from (S (length txt)) r 0.

(** [m.group(n)]; [None] for a group that did not take part. *)
Definition group (cs : caps) (n : nat) : option ustr :=
  match find (fun e => Nat.eqb (fst e) n) cs with
  | Some (_, (a, b)) => Some (firstn (b - a) (skipn a txt))
  | None => None
  end.
End Matcher.

(** Building blocks *)
Definition lit (c : Z) : rx := RChar (fun x => x =? c).
Definition ci (c : Z) : rx := RChar (fun x => lower x =? lower c).
Fixpoint seqs (l : list rx) : rx :=
  match l with [] => REps | [r] => r | r :: l' => RSeq r (seqs l') end.
Definition word (s : string) : rx := seqs (map lit (u s)).
Definition ciword (s : string) : rx := seqs (map ci (u s)).
Definition plus (a : rx) : rx := RSeq a (RStar true a).
Definition lplus (a : rx) : rx := RSeq a (RStar false a).
Definition star (a : rx) : rx := RStar true a.
Definition opt (a : rx) : rx := RAlt a REps.
Definition alts (l : list rx) : rx :=
  match l with [] => REps | r :: l' => fold_left RAlt l' r end.
(** [a{1,n}], greedy *)
Fixpoint upto (n : nat) (a : rx) : rx :=
  match n with O => REps | S n' => opt (RSeq a (upto n' a)) end.
Definition rep (lo hi : nat) (a : rx) : rx :=
  seqs (repeat a lo ++ [upto (hi - lo) a]).
Definition dig : rx := RChar is_digit.
Definition sp : rx := RChar is_space.
Definition anych (p : Z -> bool) : rx := RChar p.
Definition mem (s : string) (c : Z) : bool := existsb (fun x => x =? c) (u s).
(** A character class [[...]] searched with [re.IGNORECASE]. *)
Definition ci_class (s : string) (c : Z) : bool := existsb (fun x => lower x =? lower c) (u s).

(** [re.sub(r'\s+', ' ', s)] *)
Fixpoint collapse_go (in_ws : bool) (s : ustr) : ustr :=
  match s with
  | [] => []
  | c :: r =>
      if is_space c then (if in_ws then collapse_go true r else 32 :: collapse_go true r)
      else c :: collapse_go false r
  end.
Definition collapse_ws (s : ustr) : ustr := collapse_go false s.

(* ------------------------------------------------------------------ *)
(** ** Configuration and the status classification *)

Module Config.
Definition MAX_RETRIES : nat := 3.
Definition RETRY_DELAY : Z := 2.
Definition IMECA_MIN : Z := 0.
Definition IMECA_MAX : Z := 200.
Definition IMECA_GOOD : Z := 50.
Definition IMECA_BAD : Z := 100.
Definition VALID_STATUSES : list string := ["Buena"; "Regular"; "Mala"; "Muy Mala"].
End Config.

(** [STATION_COORDS], in insertion order; coordinates in 1e-4 degrees. *)
Definition STATION_COORDS : list (ustr * (Z * Z)) :=
  [ (u "Las Pintas", (205689, -1033064));
    (u "Centro", (206744, -1033464));
    (u "Miravalle", (206325, -1033300));
    (u "Tlaquepaque", (206400, -1033120));
    (u "Vallarta", (206736, -1033914));
    (u "Oblatos", (206786, -1032939));
    (u "Águilas", (206800, -1034300)) ].

Definition ustr_eqb (a b : ustr) : bool := bool_decide (a = b).

(** [STATION_COORDS.get(name)] *)
Definition coords_get (name : ustr) : option (Z * Z) :=
  match find (fun e => ustr_eqb (fst e) name) STATION_COORDS with
  | Some (_, c) => Some c
  | None => None
  end.

(** [AirQualityScraper._determine_status] *)
Definition determine_status (imeca : Z) : string :=
  if imeca <=? Config.IMECA_GOOD then "Buena"
  else if imeca <=? Config.IMECA_BAD then "Regular"
  else if imeca <=? 150 then "Mala"
  else "Muy Mala".

(* ------------------------------------------------------------------ *)
(** ** Parsed pages *)

(** What the parsers read from a BeautifulSoup tree: its text nodes,
    the [get_text(strip=True)] of each [h1]..[h6] element and of each
    [div]/[span]/[p] whose class matches [imeca|valor|nivel|index]. *)
Record soup := mk_soup {
  strings : list ustr;
  headers : list ustr;
  classed : list ustr
}.

(** [soup.get_text()] *)
Definition get_text (s : soup) : ustr := concat (strings s).

(** [soup.get_text(" ", strip=True)] *)
Definition get_text_sp (s : soup) : ustr :=
  match List.filter (fun t => negb (bool_decide (t = []))) (map strip (strings s)) with
  | [] => []
  | t :: ts => t ++ concat (map (fun x => 32 :: x) ts)
  end.

(** A page made of a single text node, without tags. *)
Definition text_page (t : string) : soup := mk_soup [u t] [] [].

(** The record built by [_parse_html], [_generate_mock_data] and
    [validate_imeca_data]'s argument. *)
Record imeca_data := mk_imeca {
  imeca : Z;
  status : string;
  station : ustr;
  last_update : ustr;
  source : string
}.

(* Patterns of [_parse_html] (all searched with re.IGNORECASE). *)
Definition letter_or_space (c : Z) : bool := is_ascii_letter c || is_space c.
Definition ascii_letter : rx := RChar is_ascii_letter.

Definition imeca_pattern : rx :=
  seqs [RGroup 1 (plus dig); star sp; ciword "punto"; opt (ci 115); star sp; ciword "IMECA"].

Definition number_pattern : rx := seqs [RWordB; RGroup 1 (rep 1 3 dig); RWordB].

Definition imeca_context_pattern : rx :=
  RAlt (seqs [ciword "IMECA"; star (RChar (fun c => negb (is_digit c))); RGroup 1 (rep 1 3 dig)])
       (seqs [RGroup 2 (rep 1 3 dig); star (RChar (fun c => negb (is_digit c))); ciword "IMECA"]).

Definition station_patterns : list rx :=
  [ seqs [ciword "punto"; opt (ci 115); plus sp; ciword "IMECA"; plus sp; ciword "en"; plus sp;
          RGroup 1 (lplus (RChar letter_or_space));
          alts [sp; lit 46; REol false; ciword "puntos"; word "07"]];
    seqs [ciword "estaci"; RChar (ci_class "óo"); ci 110;
          plus (RChar (fun c => (c =? 58) || is_space c));
          RGroup 1 (lplus (RChar letter_or_space));
          alts [sp; lit 46; REol false]];
    seqs [ciword "en"; plus sp;
          RGroup 1 (seqs [ascii_letter; plus ascii_letter;
                          star (seqs [plus sp; ascii_letter; plus ascii_letter])]);
          plus sp; alts [ciword "puntos"; ciword "estaci"]] ].

Definition known_stations : list string :=
  ["Las Pintas"; "COUNTRY"; "Centro"; "Miravalle"; "Tlaquepaque"; "Vallarta"; "Oblatos"; "Águilas"].

(* Patterns of the status search (re.IGNORECASE | re.MULTILINE). *)
Definition status_tail : rx :=
  seqs [plus (RChar (fun c => (c =? 58) || is_space c));
        RGroup 1 (lplus (RChar letter_or_space)); alts [sp; lit 46; REol true]].

Definition status_word_pattern : rx :=
  seqs [alts [RBol; lit 10; sp];
        RGroup 1 (alts [ciword "BUENA"; ciword "REGULAR"; ciword "MALA";
                        seqs [ciword "MUY"; plus sp; ciword "MALA"]]);
        alts [sp; REol true; lit 46]].

Definition status_patterns : list rx :=
  [ seqs [ciword "Índice"; plus sp; ciword "AIRE"; plus sp; ciword "Y"; plus sp; ciword "SALUD"; status_tail];
    seqs [ciword "Índice"; plus sp; ciword "AIRE"; plus sp; lit 38; plus sp; ciword "SALUD"; status_tail];
    seqs [ciword "Estado"; status_tail];
    status_word_pattern;
    status_word_pattern ].

(* Time patterns (re.IGNORECASE). *)
Definition month_char (c : Z) : bool :=
  is_ascii_letter c || ci_class "ÁÉÍÓÚÑ" c || is_space c || (c =? 44).

Definition time_patterns : list rx :=
  [ seqs [RGroup 1 (seqs [rep 1 2 dig; lit 58; rep 2 2 dig; star sp; RChar (ci_class "ap");
                          opt (lit 46); ci 109; opt (lit 46)]);
          star sp; lit 45; star sp; plus (RChar month_char)];
    seqs [RGroup 1 (seqs [rep 1 2 dig; lit 58; rep 2 2 dig]);
          star sp; lit 45; star sp; plus (RChar month_char)] ].

(** [r'(\d{1,2}):(\d{2})'] as used by [_parse_html] *)
Definition hour_pattern : rx := seqs [RGroup 1 (rep 1 2 dig); lit 58; RGroup 2 (rep 2 2 dig)].

(** [r"(\\d{1,2}):(\\d{2})"] as written in [_parse_all_stations]: in a raw
    string the doubled backslash is a literal backslash, followed by the
    letter [d]. *)
Definition hour_pattern_raw : rx :=
  seqs [RGroup 1 (seqs [lit 92; rep 1 2 (lit 100)]); lit 58; RGroup 2 (seqs [lit 92; rep 2 2 (lit 100)])].

(* ------------------------------------------------------------------ *)
(** ** [_parse_html] *)

Definition grp (txt : ustr) (m : option (nat * nat * caps)) (n : nat) : option ustr :=
  match m with Some (_, _, cs) => group txt cs n | None => None end.

(** The conversion of a matched time string, shared by [_parse_html]
    ([hp = hour_pattern]) and [_parse_all_stations]
    ([hp = hour_pattern_raw]); [dflt] is the current [HH:MM]. *)
Definition convert_time (hp : rx) (time_str dflt : ustr) : ustr :=
  let low := lower_s time_str in
  let hm := search time_str hp in
  match hm with
  | None => dflt
  | Some (s, e, cs) =>
    let hour := match group time_str cs 1 with Some h => int_of h | None => 0 end in
    let minute := match group time_str cs 2 with Some m => m | None => [] end in
    if contains (u "p.m.") low || contains (u "pm") low then
      pad2 (if hour =? 12 then hour else hour + 12) ++ [58] ++ minute
    else if contains (u "a.m.") low || contains (u "am") low then
      pad2 (if hour =? 12 then 0 else hour) ++ [58] ++ minute
    else firstn (e - s) (skipn s time_str)
  end.

(** The loop over [time_patterns]: the first pattern that matches decides. *)
Fixpoint time_loop (hp : rx) (page_text : ustr) (pats : list rx) (dflt : ustr) : ustr :=
  match pats with
  | [] => dflt
  | p :: ps =>
    match grp page_text (search page_text p) 1 with
    | Some g => convert_time hp (strip g) dflt
    | None => time_loop hp page_text ps dflt
    end
  end.

(** Methods 2 and 3: the first element whose first [\b\d{1,3}\b] number
    lies in [0, 200]. *)
Fixpoint first_number_in_range (texts : list ustr) : option Z :=
  match texts with
  | [] => None
  | t :: ts =>
    match grp t (search t number_pattern) 1 with
    | Some g => let v := int_of g in
                if (0 <=? v) && (v <=? 200) then Some v else first_number_in_range ts
    | None => first_number_in_range ts
    end
  end.

Definition find_imeca (sp : soup) (page_text : ustr) : option Z :=
  match grp page_text (search page_text imeca_pattern) 1 with
  | Some g => Some (int_of g)
  | None =>
    match first_number_in_range (headers sp) with
    | Some v => Some v
    | None =>
      match first_number_in_range (classed sp) with
      | Some v => Some v
      | None =>
        let m := search page_text imeca_context_pattern in
        match m with
        | None => None
        | Some _ =>
          let g := match grp page_text m 1 with
                   | Some ((_ :: _) as g1) => g1
                   | _ => match grp page_text m 2 with Some g2 => g2 | None => [] end
                   end in
          let v := int_of g in
          if (0 <=? v) && (v <=? 200) then Some v else None
        end
      end
    end
  end.

Definition common_words : list string := ["en"; "la"; "el"; "de"; "del"].

Definition station_ok (st : ustr) : bool :=
  Nat.ltb 2 (length st) && negb (existsb (fun w => ustr_eqb (lower_s st) (u w)) common_words).

Fixpoint station_loop (page_text : ustr) (pats : list rx) (cur : option ustr) : option ustr :=
  match pats with
  | [] => cur
  | p :: ps =>
    match grp page_text (search page_text p) 1 with
    | Some g => let st := collapse_ws (strip g) in
                if station_ok st then Some st else station_loop page_text ps (Some st)
    | None => station_loop page_text ps cur
    end
  end.

Definition find_station (page_text : ustr) : ustr :=
  match station_loop page_text station_patterns None with
  | Some ((_ :: _) as st) => st
  | _ =>
    match find (fun k => contains (lower_s (u k)) (lower_s page_text)) known_stations with
    | Some k => u k
    | None => u "ZMG"
    end
  end.

Definition map_status (status_text : ustr) : option string :=
  let low := lower_s (collapse_ws (strip status_text)) in
  if contains (u "muy mala") low || ustr_eqb low (u "muy mala") then Some "Muy Mala"
  else if contains (u "mala") low && negb (contains (u "muy") low) then Some "Mala"
  else if contains (u "regular") low then Some "Regular"
  else if contains (u "buena") low then Some "Buena"
  else None.

Fixpoint status_loop (page_text : ustr) (pats : list rx) : option string :=
  match pats with
  | [] => None
  | p :: ps =>
    match grp page_text (search page_text p) 1 with
    | Some g => match map_status g with
                | Some s => Some s
                | None => status_loop page_text ps
                end
    | None => status_loop page_text ps
    end
  end.

(** [AirQualityScraper._parse_html]; [None] is the [ValueError] it raises.
    [now] is [datetime.now().strftime("%H:%M")]. *)
Definition parse_html (now : ustr) (sp : soup) : option imeca_data :=
  let page_text := get_text sp in
  match find_imeca sp page_text with
  | None => None
  | Some v =>
    let st := find_station page_text in
    let status := match status_loop page_text status_patterns with
                  | Some s => s
                  | None => determine_status v
                  end in
    let lu := time_loop hour_pattern page_text time_patterns now in
    Some (mk_imeca v status st lu "real")
  end.

(* ------------------------------------------------------------------ *)
(** ** [_parse_all_stations] *)

Record station_rec := mk_station {
  st_name : ustr;
  st_imeca : Z;
  st_status : string;
  st_coords : option (Z * Z);   (* [lat]/[lon], [None] when unknown *)
  st_last_update : ustr;
  st_source : string
}.

Definition station_pattern : rx :=
  seqs [ciword "Nivel"; plus sp; ci 109; RChar (ci_class "aá"); ciword "ximo";
        plus sp; ciword "registrado"; plus sp; RGroup 1 (rep 1 3 dig); star sp;
        ciword "punto"; opt (ci 115); star sp; ciword "IMECA"; plus sp; ciword "en"; plus sp;
        RGroup 2 (plus (RChar (fun c => is_ascii_letter c || ci_class "ÁÉÍÓÚÑñ " c)))].

Definition parse_all_stations (now : ustr) (sp : soup) : list station_rec :=
  let page_text := get_text_sp sp in
  let lu := time_loop hour_pattern_raw page_text time_patterns now in
  map (fun cs =>
         let v := match group page_text cs 1 with Some g => int_of g | None => 0 end in
         let name := match group page_text cs 2 with Some g => g | None => [] end in
         let clean := strip (collapse_ws name) in
         mk_station clean v (determine_status v) (coords_get clean) lu "real")
      (findall page_text station_pattern).

(* ------------------------------------------------------------------ *)
(** ** Validation and synthetic data *)

(** [validate_imeca_data] on the dictionary built by [_parse_html]: the
    [imeca] key is always present and an [int], so only the range check
    and the (logging only) status check remain. *)
Definition validate_imeca_data (d : imeca_data) : bool * option string :=
  if (Config.IMECA_MIN <=? imeca d) && (imeca d <=? Config.IMECA_MAX) then (true, None)
  else (false, Some "IMECA fuera de rango válido (0-200)").

(** [np.random.randint(lo, hi)]: the value drawn from seed [s]; every
    seed gives a value of [[lo, hi)] and every such value has a seed. *)
Definition randint (lo hi s : Z) : Z := lo + s mod (hi - lo).

(** [AirQualityScraper._generate_mock_data] *)
Definition generate_mock_data (now : ustr) (seed : Z) : imeca_data :=
  let current_imeca := randint 45 115 seed in
  mk_imeca current_imeca (determine_status current_imeca) (u "Las Pintas (Simulado)") now "mock".

(** [AirQualityScraper._generate_mock_stations]; [seeds i] drives the
    draw for the [i]-th station of [STATION_COORDS]. *)
Definition generate_mock_stations (now : ustr) (seeds : nat -> Z) : list station_rec :=
  imap (fun i e =>
          let imeca_val := randint 40 140 (seeds i) in
          mk_station (fst e) imeca_val (determine_status imeca_val) (Some (snd e)) now "mock")
       STATION_COORDS.

(* ------------------------------------------------------------------ *)
(** ** The retry loops *)

(** What [requests.get(...)] followed by [raise_for_status()] gives at one
    attempt. *)
Inductive fetch_outcome : Type :=
| FTimeout                    (* requests.exceptions.Timeout *)
| FHttpError (code : Z)       (* requests.exceptions.HTTPError *)
| FConnError                  (* any other requests.exceptions.RequestException *)
| FOk (page : soup).

(** Observable effects: a network request, a [time.sleep]. *)
Inductive event : Type :=
| EFetch (attempt : nat)
| ESleep (secs : Z).

Inductive outcome (A : Type) : Type :=
| Returned (a : A)
| Raised.
Arguments Returned {A} a.
Arguments Raised {A}.

Definition num_fetches (tr : list event) : nat :=
  length (List.filter (fun e => match e with EFetch _ => true | _ => false end) tr).

Definition sleeps (tr : list event) : list Z :=
  omap (fun e => match e with ESleep s => Some s | _ => None end) tr.

Section Retry.
Context {A : Type}.
(** What one successful response gives: [Some (inl a)] returns [a],
    [Some (inr tt)] goes on to the next iteration, [None] is an
    exception caught by [except Exception: break]. *)
Variable on_ok : soup -> option (A + unit).
Variable fetch : nat -> fetch_outcome.

(** The body shared by [scrape] and [scrape_all_stations]:
    [for attempt in range(Config.MAX_RETRIES): try ... except ...].
    [None] in the second component means the loop ended without a
    [return]. *)
Fixpoint retry_loop (attempt : nat) (n : nat) : list event * option A :=
  match n with
  | O => ([], None)
  | S n' =>
    let next := retry_loop (S attempt) n' in
    let retry_after_sleep :=
      if Nat.ltb attempt (Config.MAX_RETRIES - 1)
      then (ESleep Config.RETRY_DELAY :: fst next, snd next) else next in
    let rest :=
      match fetch attempt with
      | FTimeout => retry_after_sleep
      | FConnError => retry_after_sleep
      | FHttpError c => if c =? 404 then ([], None) else next
      | FOk page =>
          match on_ok page with
          | Some (inl a) => ([], Some a)
          | Some (inr tt) => next
          | None => ([], None)
          end
      end in
    (EFetch attempt :: fst rest, snd rest)
  end.
End Retry.

(** [AirQualityScraper.scrape]: the loop, then the mock data or the
    final [raise]. *)
Definition scrape_on_ok (now : ustr) (page : soup) : option (imeca_data + unit) :=
  match parse_html now page with
  | None => None
  | Some d => if fst (validate_imeca_data d) then Some (inl d) else Some (inr tt)
  end.

Definition scrape (now : ustr) (seed : Z) (fetch : nat -> fetch_outcome) (use_mock_on_error : bool)
  : list event * outcome imeca_data :=
  let (tr, r) := retry_loop (scrape_on_ok now) fetch 0 Config.MAX_RETRIES in
  match r with
  | Some d => (tr, Returned d)
  | None => if use_mock_on_error then (tr, Returned (generate_mock_data now seed)) else (tr, Raised)
  end.

(** [AirQualityScraper.scrape_all_stations] *)
Definition stations_on_ok (now : ustr) (page : soup) : option (list station_rec + unit) :=
  match parse_all_stations now page with
  | [] => None                      (* raise ValueError(...) then break *)
  | stations => Some (inl stations)
  end.

Definition scrape_all_stations (now : ustr) (seeds : nat -> Z) (fetch : nat -> fetch_outcome)
  (use_mock_on_error : bool) : list event * outcome (list station_rec) :=
  let (tr, r) := retry_loop (stations_on_ok now) fetch 0 Config.MAX_RETRIES in
  match r with
  | Some st => (tr, Returned st)
  | None => if use_mock_on_error then (tr, Returned (generate_mock_stations now seeds)) else (tr, Raised)
  end.

(* ------------------------------------------------------------------ *)
(** ** [get_chapala_level_real] *)

(** The reading; [level_msnm] is the matched [\d{2,3}\.\d{2}] decimal, in
    hundredths of a metre (the exact value [float()] rounds). *)
Record water_level := mk_level {
  level_msnm : Z;
  wl_unit : string;   (* the "unit" key *)
  wl_last_update : ustr;
  wl_source : string;
  raw_snippet : option ustr
}.

Definition msnm_suffix : rx :=
  alts [seqs [lit 109; opt (lit 46); lit 115; opt (lit 46); lit 110; opt (lit 46); lit 109; opt (lit 46)];
        word "msnm"; lit 109].

Definition level_number : rx := seqs [rep 2 3 dig; lit 46; rep 2 2 dig].

Definition cota_patterns : list rx :=
  [ seqs [RChar (mem "Cc"); word "ota"; plus (RChar (fun c => (c =? 58) || is_space c));
          RGroup 1 level_number; star sp; msnm_suffix];
    seqs [RGroup 1 level_number; star sp; msnm_suffix; star sp; RChar (mem "Cc"); word "ota"] ].

(** [float(s)] on [\d{2,3}\.\d{2}], in hundredths *)
Definition hundredths_of (s : ustr) : Z := int_of (List.filter (fun c => negb (c =? 46)) s).

Fixpoint cota_loop (page_text : ustr) (pats : list rx) : option (Z * ustr) :=
  match pats with
  | [] => None
  | p :: ps =>
    match search page_text p with
    | Some (s, e, cs) =>
        let v := match group page_text cs 1 with Some g => hundredths_of g | None => 0 end in
        let start := (s - 30)%nat in
        let stop := Nat.min (e + 30) (length page_text) in
        Some (v, firstn (stop - start) (skipn start page_text))
    | None => cota_loop page_text ps
    end
  end.

(** One request, no loop; any exception gives the mock value or is
    re-raised. *)
Definition get_chapala_level_real (now : ustr) (fetch : nat -> fetch_outcome)
  (use_mock_on_error : bool) : list event * outcome water_level :=
  let mock := if use_mock_on_error
              then Returned (mk_level 9450 "msnm" now "mock" None) else Raised in
  ([EFetch 0],
   match fetch 0%nat with
   | FOk page =>
       match cota_loop (get_text_sp page) cota_patterns with
       | Some (v, snip) => Returned (mk_level v "msnm" now "real" (Some snip))
       | None => mock
       end
   | _ => mock
   end).

(* ------------------------------------------------------------------ *)
(** ** News items and their summaries *)

(** An item as built by [get_chivas_news_rss] / [get_env_news_rss]. *)
Record news_item := mk_news {
  title : ustr;
  description : ustr;
  link : ustr;
  published : ustr;
  news_source : ustr
}.

(** The dictionary returned to the caller: the item's keys plus the keys
    added by the processing ([None] when a key is absent). *)
Record news_out := mk_out {
  base : news_item;
  ai_summary : option ustr;
  is_rumor : option bool;
  processed : option bool;
  error : option (option ustr)
}.

(** The remote model: [gen model title description] is [inl text] when
    [model.generate_content(prompt)] answers ([prompt] is the template
    filled with [title] and [description]), [inr message] when it raises. *)
Abbreviation generator := (string -> ustr -> ustr -> ustr + ustr).

(** [(texto[:200] + "...") if len(texto) > 200 else texto] *)
Definition truncate200 (t : ustr) : ustr :=
  if Nat.ltb 200 (length t) then firstn 200 t ++ u "..." else t.

Module Env.
(** [resumir_noticia_medio_ambiente_con_ia]; [has_key] is
    [bool(_ENV_GEMINI_API_KEY)]. *)
Definition resumir (has_key : bool) (gen : generator) (titulo descripcion : ustr) : ustr :=
  if negb has_key then truncate200 descripcion
  else match gen "gemini-2.5-flash-lite" titulo descripcion with
       | inl t => strip t
       | inr _ =>
         match gen "gemini-2.5-flash" titulo descripcion with
         | inl t => strip t
         | inr _ => truncate200 descripcion
         end
       end.

(** [process_env_news_with_ai]; [resumir] never raises, so its
    [except] branch is not reached. *)
Definition process (has_key : bool) (gen : generator) (n : news_item) : news_out :=
  mk_out n (Some (resumir has_key gen (title n) (description n))) None (Some has_key) (Some None).

(** [get_env_news], given what [get_env_news_rss] returned. *)
Definition get_news (has_key : bool) (gen : generator) (rss : list news_item) (use_ai : bool)
  : list news_out :=
  match rss with
  | [] => []
  | _ => if negb use_ai
         then map (fun n => mk_out n (Some (description n)) None (Some false) (Some None)) rss
         else map (process has_key gen) rss
  end.
End Env.

Module Chivas.
(** [resumir_noticia_con_ia]: no key check. *)
Definition resumir (gen : generator) (titulo descripcion : ustr) : ustr :=
  match gen "gemini-2.5-flash-lite" titulo descripcion with
  | inl t => strip t
  | inr _ =>
    match gen "gemini-2.5-flash" titulo descripcion with
    | inl t => strip t
    | inr e2 => u "Error resumiendo noticia: " ++ e2
    end
  end.

(** [process_news_with_ai]; [resumir] never raises. *)
Definition process (gen : generator) (n : news_item) : news_out :=
  mk_out n (Some (resumir gen (title n) (description n))) (Some false) (Some true) (Some None).

(** [process_all_news] *)
Definition process_all (gen : generator) (l : list news_item) (use_ai : bool) : list news_out :=
  if negb use_ai
  then map (fun n => mk_out n (Some (description n)) (Some false) (Some false) None) l
  else map (process gen) l.

(** [get_chivas_news], given what [get_chivas_news_rss] returned. *)
Definition get_news (gen : generator) (rss : list news_item) (use_ai : bool) : list news_out :=
  match rss with
  | [] => []
  | _ => if use_ai then process_all gen rss true
         else map (fun n => mk_out n None None None None) rss
  end.
End Chivas.

(* ------------------------------------------------------------------ *)
(** ** The daily cache of [src/utils.py] *)

#[local] Set Warnings "-register-all".
Inductive json : Type :=
| JNull
| JBool (b : bool)
| JNum (z : Z)
| JStr (s : ustr)
| JArr (l : list json)
| JObj (kvs : list (ustr * json)).

(** A file on disk: a JSON document, or contents [json.load] rejects. *)
Inductive file : Type :=
| FJson (j : json)
| FCorrupt.

Abbreviation fs := (gmap string file).

(** [dict.get(k)] on a decoded object: the last binding wins. *)
Definition jget (k : ustr) (kvs : list (ustr * json)) : option json :=
  fold_left (fun acc e => if ustr_eqb (fst e) k then Some (snd e) else acc) kvs None.

(** [load_daily_cache]; [today] is [datetime.now().strftime("%Y-%m-%d")].
    [None] is Python's [None]. *)
Definition load_daily_cache (disk : fs) (filename : string) (today : ustr) : option json :=
  match disk !! filename with
  | None => None
  | Some FCorrupt => None
  | Some (FJson (JObj kvs)) =>
      match jget (u "date") kvs with
      | Some (JStr d) =>
          if ustr_eqb d today then
            match jget (u "data") kvs with
            | Some JNull | None => None
            | Some j => Some j
            end
          else None
      | _ => None
      end
  | Some (FJson _) => None          (* .get on a non-dict raises, caught *)
  end.

(** How the write in [save_daily_cache] goes: [open(filename, 'w')] can
    raise before touching the file (missing directory, no permission);
    once it has opened the file it has truncated it, and [json.dump] or the
    closing flush can still raise (disk full, an unserialisable value),
    leaving an empty or cut-off document that [json.load] rejects. *)
Inductive write_outcome : Type :=
| WriteOk
| OpenFails
| DumpFails.

(** [save_daily_cache]; the exception of a failed write is logged and
    swallowed. *)
Definition save_daily_cache (disk : fs) (w : write_outcome) (filename : string) (today : ustr)
  (data : json) : fs :=
  match w with
  | WriteOk => <[filename := FJson (JObj [(u "date", JStr today); (u "data", data)])]> disk
  | OpenFails => disk
  | DumpFails => <[filename := FCorrupt]> disk
  end.

(* ------------------------------------------------------------------ *)
(** ** The spec's five-class classification (claim C1, as worded) *)

Inductive aq_class := Good | Moderate | Bad | VeryBad | ExtremelyBad.

(** The thresholds as the spec words them. *)
Definition spec_class (v : Z) : aq_class :=
  if v <=? 50 then Good
  else if v <=? 100 then Moderate
  else if v <=? 150 then Bad
  else if v <=? 200 then VeryBad
  else ExtremelyBad.

(** A page made of the text of the end-to-end scenario. *)
Definition scenario_page : soup :=
  text_page "Nivel máximo registrado 142 puntos IMECA en Las Pintas".

(** A page whose only reading lies outside the valid index range. *)
Definition out_of_range_page : soup := text_page "Nivel máximo registrado 250 puntos IMECA".

Definition is_real (s : station_rec) : Prop := st_source s = "real".
Definition is_mock (s : station_rec) : Prop := st_source s = "mock".

(** A model that always raises, as without a usable credential. *)
Definition failing_gen : generator := fun _ _ _ => inr (u "API key not valid").

Definition sample_item : news_item := mk_news (u "Titular") (u "Resumen breve") [] [] [].

(** A summary comes from the remote model: it is [t.strip()] for the
    answer [t] of the first model that answers, "gemini-2.5-flash-lite"
    and, only if that one raises, "gemini-2.5-flash". *)
Definition from_remote (gen : generator) (n : news_item) (o : news_out) : Prop :=
  exists t, ai_summary o = Some (strip t) /\
    (gen "gemini-2.5-flash-lite" (title n) (description n) = inl t \/
     ((exists e1, gen "gemini-2.5-flash-lite" (title n) (description n) = inr e1) /\
      gen "gemini-2.5-flash" (title n) (description n) = inl t)).

(* ------------------------------------------------------------------ *)
(** ** Reading the RSS feeds ([get_env_news_rss], [get_chivas_news_rss]) *)

(** [re.sub(r"<[^>]+>", "", s)]: scanning left to right, a [<] starts a
    match exactly when the first [>] after it exists and is not the very
    next character; the match runs to that [>] and is deleted, and the
    scan resumes after it.  [fuel] bounds the scan ([length s] suffices,
    every step consumes a character). *)
Fixpoint split_at_gt (s : ustr) : option (ustr * ustr) :=
  match s with
  | [] => None
  | c :: r => if c =? 62 then Some ([], r)
              else match split_at_gt r with
                   | Some (b, rest) => Some (c :: b, rest)
                   | None => None
                   end
  end.

Fixpoint strip_tags_go (fuel : nat) (s : ustr) : ustr :=
  match fuel with
  | O => []
  | S f =>
    match s with
    | [] => []
    | c :: r =>
      if c =? 60 then
        match split_at_gt r with
        | Some ((_ :: _), rest) => strip_tags_go f rest
        | _ => c :: strip_tags_go f r
        end
      else c :: strip_tags_go f r
    end
  end.

Definition strip_tags (s : ustr) : ustr := strip_tags_go (length s) s.

(** One entry of a parsed feed; [None] for a missing key.  [e_source] is
    [None] when the entry has no [source], [Some t] for a source whose
    [title] is [t]. *)
Record rss_entry := mk_entry {
  e_title : option ustr;
  e_summary : option ustr;
  e_description : option ustr;
  e_link : option ustr;
  e_published : option ustr;
  e_source : option (option ustr)
}.

Definition get_or (o : option ustr) (d : ustr) : ustr := match o with Some x => x | None => d end.

(** [feed.entries[:n]] *)
Definition py_take {A} (n : Z) (l : list A) : list A :=
  if 0 <=? n then firstn (Z.to_nat n) l
  else firstn (Z.to_nat (Z.of_nat (length l) + n)) l.

(** [max_items or MAX_NEWS] *)
Definition max_or_default (max_items : option Z) : Z :=
  match max_items with None => 5 | Some 0 => 5 | Some n => n end.

(** The dictionary built for one entry (identical in both modules). *)
Definition news_of_entry (e : rss_entry) : news_item :=
  let description := get_or (e_summary e) (get_or (e_description e) []) in
  let description := strip (strip_tags description) in
  mk_news (get_or (e_title e) (u "Sin título")) description (get_or (e_link e) [])
          (get_or (e_published e) [])
          (match e_source e with Some (Some t) => t | _ => u "Fuente desconocida" end).

(** [get_env_news_rss] / [get_chivas_news_rss], given the entries of the
    feed that [feedparser.parse] returned. *)
Definition get_env_news_rss (max_items : option Z) (entries : list rss_entry) : list news_item :=
  map news_of_entry (py_take (max_or_default max_items) entries).

Definition get_chivas_news_rss (max_items : option Z) (entries : list rss_entry) : list news_item :=
  map news_of_entry (py_take (max_or_default max_items) entries).

(** [get_env_news]: the feed, then the summaries. *)
Definition get_env_news (has_key : bool) (gen : generator) (max_items : option Z) (use_ai : bool)
  (entries : list rss_entry) : list news_out :=
  Env.get_news has_key gen (get_env_news_rss max_items entries) use_ai.

(** [get_chivas_news] *)
Definition get_chivas_news (gen : generator) (max_items : option Z) (use_ai : bool)
  (entries : list rss_entry) : list news_out :=
  Chivas.get_news gen (get_chivas_news_rss max_items entries) use_ai.

(** [re.search(r"<[^>]+>", s)] finds something: a [<], then at least one
    character other than [>], then a [>]. *)
Definition has_tag (s : ustr) : Prop :=
  exists a b c, s = a ++ 60 :: b ++ 62 :: c /\ b <> [] /\ ~ In 62 b.

(** Neither the first nor the last character is white space. *)
Definition trimmed (s : ustr) : Prop :=
  (forall c r, s = c :: r -> is_space c = false) /\
  (forall c r, s = r ++ [c] -> is_space c = false).

(** The two news lists [daily_briefing.create_html_content] fetches. *)
Definition briefing_news (has_key : bool) (gen : generator)
  (env_entries chivas_entries : list rss_entry) : list news_out * list news_out :=
  (get_env_news has_key gen (Some 4) false env_entries,
   get_chivas_news gen (Some 4) false chivas_entries).

(* ------------------------------------------------------------------ *)
(** ** How [app.py] shows one news item *)

(** The "**Resumen:**" line or the "**Descripción:**" line. *)
Inductive shown : Type :=
| Resumen (s : ustr)
| Descripcion (s : ustr).

(** The environment tab: [if item.get("ai_summary"): ... else: desc[:200]
    + ('...' if len(desc) > 200 else '')]. *)
Definition env_news_shown (n : news_out) : shown :=
  match ai_summary n with
  | Some ((_ :: _) as s) => Resumen s
  | _ => let desc := description (base n) in
         Descripcion (firstn 200 desc ++ (if Nat.ltb 200 (length desc) then u "..." else []))
  end.

(** The Chivas tab: [if news.get('processed', False) and
    news.get('ai_summary'): ... else: description[:200] + "..."]. *)
Definition chivas_news_shown (n : news_out) : shown :=
  match processed n, ai_summary n with
  | Some true, Some ((_ :: _) as s) => Resumen s
  | _, _ => Descripcion (firstn 200 (description (base n)) ++ u "...")
  end.

(* ------------------------------------------------------------------ *)
(** ** [EnvironmentVisualizations.plot_imeca_gauge]: the bar colour *)

Definition gauge_color (status : string) : string :=
  if String.eqb status "Buena" then "green"
  else if String.eqb status "Regular" then "yellow"
  else if String.eqb status "Mala" then "orange"
  else if String.eqb status "Muy Mala" then "red"
  else "gray".

(* ------------------------------------------------------------------ *)
(** ** Auxiliary definitions for the properties *)

Definition station_consistent (r : station_rec) : Prop :=
  st_status r = determine_status (st_imeca r) /\ st_coords r = coords_get (st_name r).

Definition no_backslash (t : ustr) : bool := negb (existsb (fun c => c =? 92) t).

(** After a [<] of the output comes either [>] at once or no [>] at all. *)
Definition lt_ok (o : ustr) : Prop :=
  forall a c, o = a ++ 60 :: c -> hd_error c = Some 62 \/ ~ In 62 c.

Definition sample_entry (k : Z) : rss_entry :=
  mk_entry (Some [k]) (Some (u "<p>Nota</p> ")) None None None None.

Definition zrange (lo : Z) (n : nat) : list Z := map (fun k => lo + Z.of_nat k) (seq 0 n).

(** [h:mm] followed by [suffix], as the first time pattern captures it. *)
Definition clock_str (h m : Z) (suffix : string) : ustr := show_nat h ++ [58] ++ pad2 m ++ u suffix.

Definition found {A} (o : option A) : bool := match o with Some _ => true | None => false end.

(** The outcomes of an attempt that send the retry loop on to the next
    attempt whatever the page: a timeout or a connection error (pausing
    first unless it is the last attempt), or an HTTP error other than 404. *)
Definition transient_failure (o : fetch_outcome) : bool :=
  match o with
  | FTimeout | FConnError => true
  | FHttpError c => negb (c =? 404)
  | FOk _ => false
  end.

(** The outcomes of an attempt that send [retry_loop on_ok] on to the
    next attempt: a transient failure, or a response that [on_ok] asks to
    retry ([Some (inr tt)], e.g. an index that fails validation). *)
Definition goes_on {A} (on_ok : soup -> option (A + unit)) (o : fetch_outcome) : bool :=
  match o with
  | FOk page => match on_ok page with Some (inr _) => true | _ => false end
  | _ => transient_failure o
  end.

Definition time_row_ok (h m : Z) : bool :=
  found (search (clock_str h m " p.m.") hour_pattern) &&
  ustr_eqb (convert_time hour_pattern (clock_str h m " p.m.") [])
           (pad2 (if h =? 12 then 12 else h + 12) ++ [58] ++ pad2 m) &&
  found (search (clock_str h m " a.m.") hour_pattern) &&
  ustr_eqb (convert_time hour_pattern (clock_str h m " a.m.") [])
           (pad2 (if h =? 12 then 0 else h) ++ [58] ++ pad2 m) &&
  found (search (clock_str h m " p.m") hour_pattern) &&
  ustr_eqb (convert_time hour_pattern (clock_str h m " p.m") []) (show_nat h ++ [58] ++ pad2 m).

(* ================================================================== *)
(** * Properties *)

(** ** General facts about the model *)

Lemma randint_bounds (lo hi s : Z) : lo < hi -> lo <= randint lo hi s < hi.
Proof. intros H. unfold randint. pose proof (Z.mod_pos_bound s (hi - lo)). lia. Qed.

Lemma determine_status_not_worst (v : Z) : v <= 150 -> determine_status v <> "Muy Mala".
Proof.
  intros H. unfold determine_status, Config.IMECA_GOOD, Config.IMECA_BAD.
  destruct (v <=? 50); [discriminate|].
  destruct (v <=? 100); [discriminate|].
  destruct (Z.leb_spec v 150); [discriminate | lia].
Qed.

Lemma Forall_imap_intro {A B} (P : B -> Prop) (f : nat -> A -> B) (l : list A) :
  (forall i x, P (f i x)) -> Forall P (imap f l).
Proof.
  revert f. induction l as [|x l IH]; intros f Hf; [constructor|].
  rewrite imap_cons. constructor; [apply Hf | apply IH; intros; apply Hf].
Qed.

Lemma parse_all_stations_real (now : ustr) (page : soup) :
  Forall is_real (parse_all_stations now page).
Proof.
  unfold parse_all_stations. apply List.Forall_forall. intros s Hs.
  apply in_map_iff in Hs as [cs [<- _]]. reflexivity.
Qed.

Lemma generate_mock_stations_mock (now : ustr) (seeds : nat -> Z) :
  Forall is_mock (generate_mock_stations now seeds).
Proof. apply Forall_imap_intro. intros; reflexivity. Qed.

Lemma generate_mock_stations_length (now : ustr) (seeds : nat -> Z) :
  length (generate_mock_stations now seeds) = length STATION_COORDS.
Proof. apply length_imap. Qed.

(** A value returned by the retry loop comes from one successful response. *)
Lemma retry_loop_returned {A} (on_ok : soup -> option (A + unit)) fetch attempt n a :
  snd (retry_loop on_ok fetch attempt n) = Some a ->
  exists i page, fetch i = FOk page /\ on_ok page = Some (inl a).
Proof.
  revert attempt. induction n as [|n IH]; intros attempt H; simpl in H; [discriminate|].
  destruct (fetch attempt) as [| c | | page] eqn:E.
  - destruct (Nat.ltb _ _); simpl in H; eauto.
  - destruct (c =? 404); simpl in H; [discriminate | eauto].
  - destruct (Nat.ltb _ _); simpl in H; eauto.
  - destruct (on_ok page) as [[a'|[]]|] eqn:Ok; simpl in H; try discriminate; eauto.
    injection H as <-. eauto.
Qed.

Lemma scrape_trace (now : ustr) (seed : Z) (fetch : nat -> fetch_outcome) (use_mock : bool) :
  fst (scrape now seed fetch use_mock) = fst (retry_loop (scrape_on_ok now) fetch 0 Config.MAX_RETRIES).
Proof.
  unfold scrape. destruct (retry_loop (scrape_on_ok now) fetch 0 Config.MAX_RETRIES) as [tr [d|]];
    [|destruct use_mock]; reflexivity.
Qed.

Lemma scrape_unfold (now : ustr) (seed : Z) (fetch : nat -> fetch_outcome) (use_mock : bool) :
  scrape now seed fetch use_mock =
    (fst (retry_loop (scrape_on_ok now) fetch 0 Config.MAX_RETRIES),
     match snd (retry_loop (scrape_on_ok now) fetch 0 Config.MAX_RETRIES) with
     | Some d => Returned d
     | None => if use_mock then Returned (generate_mock_data now seed) else Raised
     end).
Proof.
  unfold scrape. destruct (retry_loop (scrape_on_ok now) fetch 0 Config.MAX_RETRIES) as [tr [d|]];
    [|destruct use_mock]; reflexivity.
Qed.

Lemma scrape_all_stations_unfold (now : ustr) (seeds : nat -> Z) (fetch : nat -> fetch_outcome)
  (use_mock : bool) :
  scrape_all_stations now seeds fetch use_mock =
    (fst (retry_loop (stations_on_ok now) fetch 0 Config.MAX_RETRIES),
     match snd (retry_loop (stations_on_ok now) fetch 0 Config.MAX_RETRIES) with
     | Some st => Returned st
     | None => if use_mock then Returned (generate_mock_stations now seeds) else Raised
     end).
Proof.
  unfold scrape_all_stations.
  destruct (retry_loop (stations_on_ok now) fetch 0 Config.MAX_RETRIES) as [tr [st|]];
    [|destruct use_mock]; reflexivity.
Qed.

Lemma transient_goes_on {A} (on_ok : soup -> option (A + unit)) (o : fetch_outcome) :
  transient_failure o = true -> goes_on on_ok o = true.
Proof. destruct o; simpl; auto; discriminate. Qed.

(** Attempts that go on are passed over: after [i] of them the loop
    carries on from attempt [attempt + i], the requests so far being [i]. *)
Lemma retry_loop_skip {A} (on_ok : soup -> option (A + unit)) fetch (i : nat) :
  forall attempt n, (i <= n)%nat ->
  (forall j, (j < i)%nat -> goes_on on_ok (fetch (attempt + j)%nat) = true) ->
  exists pre, num_fetches pre = i /\
    retry_loop on_ok fetch attempt n =
      (pre ++ fst (retry_loop on_ok fetch (attempt + i) (n - i)),
       snd (retry_loop on_ok fetch (attempt + i) (n - i))).
Proof.
  induction i as [|i IH]; intros attempt n Hin Hg.
  - exists []. split; [reflexivity|]. rewrite Nat.add_0_r, Nat.sub_0_r.
    destruct (retry_loop on_ok fetch attempt n); reflexivity.
  - destruct n as [|n]; [lia|].
    assert (H0 : goes_on on_ok (fetch attempt) = true)
      by (rewrite <- (Nat.add_0_r attempt); apply Hg; lia).
    destruct (IH (S attempt) n ltac:(lia)) as (pre & Hpre & Heq).
    { intros j Hj. replace (S attempt + j)%nat with (attempt + S j)%nat by lia. apply Hg. lia. }
    replace (attempt + S i)%nat with (S attempt + i)%nat by lia.
    cbn [retry_loop Nat.sub]. rewrite Heq.
    unfold goes_on, transient_failure in H0.
    destruct (fetch attempt) as [| c | | page].
    + destruct (Nat.ltb attempt (Config.MAX_RETRIES - 1)).
      * exists (EFetch attempt :: ESleep Config.RETRY_DELAY :: pre). split; [rewrite <- Hpre; reflexivity | reflexivity].
      * exists (EFetch attempt :: pre). split; [rewrite <- Hpre; reflexivity | reflexivity].
    + destruct (c =? 404); [discriminate|].
      exists (EFetch attempt :: pre). split; [rewrite <- Hpre; reflexivity | reflexivity].
    + destruct (Nat.ltb attempt (Config.MAX_RETRIES - 1)).
      * exists (EFetch attempt :: ESleep Config.RETRY_DELAY :: pre). split; [rewrite <- Hpre; reflexivity | reflexivity].
      * exists (EFetch attempt :: pre). split; [rewrite <- Hpre; reflexivity | reflexivity].
    + destruct (on_ok page) as [[a|[]]|]; try discriminate.
      exists (EFetch attempt :: pre). split; [rewrite <- Hpre; reflexivity | reflexivity].
Qed.

(** One attempt whose request succeeds. *)
Lemma retry_loop_ok_at {A} (on_ok : soup -> option (A + unit)) fetch attempt n page :
  fetch attempt = FOk page ->
  retry_loop on_ok fetch attempt (S n) =
    match on_ok page with
    | Some (inl a) => ([EFetch attempt], Some a)
    | Some (inr _) => (EFetch attempt :: fst (retry_loop on_ok fetch (S attempt) n),
                       snd (retry_loop on_ok fetch (S attempt) n))
    | None => ([EFetch attempt], None)
    end.
Proof. intros H. cbn [retry_loop]. rewrite H. destruct (on_ok page) as [[a|[]]|]; reflexivity. Qed.

(** ** C1 *)

(** C1 (counterexample). No reading of the code's status strings as the
    spec's five classes agrees with the spec's thresholds on the
    non-negative indices: 160 and 201 get the same status. *)
Lemma C1_five_classes_refuted :
  ~ (exists f : string -> aq_class, forall v, 0 <= v -> f (determine_status v) = spec_class v).
Proof.
  intros [f Hf].
  pose proof (Hf 160 ltac:(lia)) as H1. pose proof (Hf 201 ltac:(lia)) as H2.
  vm_compute in H1, H2. congruence.
Qed.

(** C1 (amended). [_determine_status] is a total function of the index
    with four classes and no gaps or overlaps: [v <= 50] is "Buena",
    [(50, 100]] is "Regular", [(100, 150]] is "Mala", and every [v > 150]
    is "Muy Mala". *)
Theorem determine_status_thresholds (v : Z) :
  (determine_status v = "Buena" <-> v <= 50) /\
  (determine_status v = "Regular" <-> 50 < v <= 100) /\
  (determine_status v = "Mala" <-> 100 < v <= 150) /\
  (determine_status v = "Muy Mala" <-> 150 < v).
Proof.
  unfold determine_status, Config.IMECA_GOOD, Config.IMECA_BAD.
  destruct (Z.leb_spec v 50); [|destruct (Z.leb_spec v 100); [|destruct (Z.leb_spec v 150)]];
    repeat split; intros; (discriminate || reflexivity || lia).
Qed.

Lemma determine_status_thresholds_witness : determine_status 150 = "Mala" /\ determine_status 151 = "Muy Mala".
Proof.
  split.
  - apply (proj2 (proj1 (proj2 (proj2 (determine_status_thresholds 150))))). lia.
  - apply (proj2 (proj2 (proj2 (proj2 (determine_status_thresholds 151))))). lia.
Defined.

(** ** C10 *)

(** C10. Synthetic readings: the single reading lies in [[45, 114]], each
    per-station reading in [[40, 139]]; all are in the valid range
    [[0, 200]] (the single one passes [validate_imeca_data]), none is
    "Muy Mala", and all are marked "mock". *)
Theorem mock_readings_bounded (now : ustr) (seed : Z) (seeds : nat -> Z) :
  (45 <= imeca (generate_mock_data now seed) <= 114 /\
   status (generate_mock_data now seed) <> "Muy Mala" /\
   fst (validate_imeca_data (generate_mock_data now seed)) = true /\
   source (generate_mock_data now seed) = "mock") /\
  Forall (fun s => 40 <= st_imeca s <= 139 /\ st_status s <> "Muy Mala" /\
                   Config.IMECA_MIN <= st_imeca s <= Config.IMECA_MAX /\ st_source s = "mock")
         (generate_mock_stations now seeds).
Proof.
  split.
  - pose proof (randint_bounds 45 115 seed ltac:(lia)) as B.
    unfold generate_mock_data, validate_imeca_data, Config.IMECA_MIN, Config.IMECA_MAX.
    cbn [imeca status source].
    repeat split; try lia.
    + apply determine_status_not_worst; lia.
    + rewrite (proj2 (Z.leb_le 0 _)), (proj2 (Z.leb_le _ 200)) by lia. reflexivity.
  - apply Forall_imap_intro. intros i x; cbn [st_imeca st_status st_source].
    pose proof (randint_bounds 40 140 (seeds i) ltac:(lia)) as B.
    unfold Config.IMECA_MIN, Config.IMECA_MAX.
    repeat split; try lia. apply determine_status_not_worst; lia.
Qed.

(** ** C2 *)

(** C2 (counterexample). On the scenario page a successful request
    recovers a single station, fewer than 5, yet with the synthetic
    fallback enabled the per-station operation returns that one real
    station, not the 7 synthetic ones. *)
Lemma C2_threshold_refuted :
  length (parse_all_stations (u "10:00") scenario_page) = 1%nat /\
  snd (scrape_all_stations (u "10:00") (fun _ => 0) (fun _ => FOk scenario_page) true)
    <> Returned (generate_mock_stations (u "10:00") (fun _ => 0)).
Proof.
  split; [vm_compute; reflexivity|].
  intros H. apply (f_equal (fun o => match o with Returned l => length l | Raised => 0%nat end)) in H.
  vm_compute in H. discriminate.
Qed.

(** C2 (amended). Every list returned by [scrape_all_stations] is either
    the full synthetic set (fallback enabled; one "mock" entry per
    registry station, 7 in all) or a non-empty list of "real" stations
    parsed from one response, never a mix.  There is no minimum of 5:
    when the earlier attempts failed (timeout, connection error, HTTP
    error other than 404) and attempt [i] gets a response, that response
    is the last request; its parsed stations are returned as soon as
    there is at least one, and only an empty parse gives the synthetic
    set (or the error). *)
Theorem scrape_all_stations_result (now : ustr) (seeds : nat -> Z) (fetch : nat -> fetch_outcome)
  (use_mock : bool) :
  (forall l, snd (scrape_all_stations now seeds fetch use_mock) = Returned l ->
     (use_mock = true /\ l = generate_mock_stations now seeds /\ length l = 7%nat /\ Forall is_mock l)
     \/ (l <> [] /\ Forall is_real l /\
         exists i page, fetch i = FOk page /\ l = parse_all_stations now page)) /\
  (forall i page, (i < Config.MAX_RETRIES)%nat ->
     (forall j, (j < i)%nat -> transient_failure (fetch j) = true) ->
     fetch i = FOk page ->
     (exists pre, num_fetches pre = i /\
        fst (scrape_all_stations now seeds fetch use_mock) = pre ++ [EFetch i]) /\
     snd (scrape_all_stations now seeds fetch use_mock) =
       match parse_all_stations now page with
       | [] => if use_mock then Returned (generate_mock_stations now seeds) else Raised
       | l => Returned l
       end).
Proof.
  split.
  - unfold scrape_all_stations.
    destruct (retry_loop (stations_on_ok now) fetch 0 Config.MAX_RETRIES) as [tr [st|]] eqn:E.
    + cbn -[parse_all_stations]. intros l [= <-]. right.
      destruct (retry_loop_returned (stations_on_ok now) fetch 0 Config.MAX_RETRIES st)
        as (i & page & Hf & Hok); [rewrite E; reflexivity|].
      unfold stations_on_ok in Hok.
      destruct (parse_all_stations now page) as [|s ss] eqn:P; [discriminate|].
      injection Hok as <-. split; [discriminate|]. split.
      * rewrite <- P. apply parse_all_stations_real.
      * exists i, page. auto.
    + destruct use_mock; cbn -[generate_mock_stations]; intros l H; [|discriminate].
      injection H as <-. left. repeat split. apply generate_mock_stations_mock.
  - intros i page Hi Hj Hf.
    destruct (retry_loop_skip (stations_on_ok now) fetch i 0 Config.MAX_RETRIES ltac:(lia))
      as (pre & Hpre & Heq).
    { intros j Hj'. apply transient_goes_on. apply Hj. exact Hj'. }
    rewrite scrape_all_stations_unfold, Heq. cbn [fst snd Nat.add].
    replace (Config.MAX_RETRIES - i)%nat with (S (Config.MAX_RETRIES - 1 - i)) by (unfold Config.MAX_RETRIES in *; lia).
    rewrite (retry_loop_ok_at _ _ _ _ page Hf). unfold stations_on_ok.
    destruct (parse_all_stations now page) as [|s ss]; cbn [fst snd];
      (split; [exists pre; auto | reflexivity]).
Qed.

(** Witness: a timeout, then a response from which one station is
    parsed; that station is returned after two requests. *)
Lemma scrape_all_stations_result_witness :
  (exists pre, num_fetches pre = 1%nat /\
     fst (scrape_all_stations (u "10:00") (fun _ => 0)
            (fun k => match k with O => FTimeout | _ => FOk scenario_page end) true) = pre ++ [EFetch 1]) /\
  snd (scrape_all_stations (u "10:00") (fun _ => 0)
         (fun k => match k with O => FTimeout | _ => FOk scenario_page end) true) =
    Returned [mk_station (u "Las Pintas") 142 "Mala" (coords_get (u "Las Pintas")) (u "10:00") "real"].
Proof.
  destruct (proj2 (scrape_all_stations_result (u "10:00") (fun _ => 0)
                     (fun k => match k with O => FTimeout | _ => FOk scenario_page end) true)
              1%nat scenario_page) as [Htr Hres].
  - unfold Config.MAX_RETRIES. lia.
  - intros j Hj. destruct j as [|j]; [reflexivity | lia].
  - reflexivity.
  - split; [exact Htr|]. rewrite Hres. vm_compute. reflexivity.
Defined.

(** ** C4 *)

(** C4 (counterexample). A permanent client error other than 404 (here
    403, a 4xx status) at every attempt makes [scrape] request the page
    three times instead of aborting after the first. *)
Lemma C4_403_retried :
  fst (scrape (u "10:00") 0 (fun _ => FHttpError 403) true) = [EFetch 0; EFetch 1; EFetch 2] /\
  num_fetches (fst (scrape (u "10:00") 0 (fun _ => FHttpError 403) true)) = 3%nat.
Proof. split; reflexivity. Qed.

(** C4 (amended). In both air-quality scrapers only a 404 aborts after the
    first request; any other HTTP error status, including the other 4xx
    codes, is followed by a new request (without delay), up to 3 requests
    in all. *)
Theorem http_error_policy (now : ustr) (seed : Z) (seeds : nat -> Z) (fetch : nat -> fetch_outcome)
  (use_mock : bool) :
  (fetch 0%nat = FHttpError 404 ->
     fst (scrape now seed fetch use_mock) = [EFetch 0] /\
     fst (scrape_all_stations now seeds fetch use_mock) = [EFetch 0]) /\
  (forall c, c <> 404 -> (forall i, fetch i = FHttpError c) ->
     fst (scrape now seed fetch use_mock) = [EFetch 0; EFetch 1; EFetch 2] /\
     fst (scrape_all_stations now seeds fetch use_mock) = [EFetch 0; EFetch 1; EFetch 2]).
Proof.
  unfold scrape, scrape_all_stations, Config.MAX_RETRIES. split.
  - intros Hf. cbn [retry_loop]. rewrite Hf. destruct use_mock; split; reflexivity.
  - intros c Hc Hf. cbn [retry_loop]. rewrite !Hf.
    rewrite (proj2 (Z.eqb_neq c 404) Hc). destruct use_mock; split; reflexivity.
Qed.

Lemma http_error_policy_witness :
  fst (scrape (u "10:00") 0 (fun _ => FHttpError 404) true) = [EFetch 0] /\
  fst (scrape (u "10:00") 0 (fun _ => FHttpError 500) true) = [EFetch 0; EFetch 1; EFetch 2].
Proof.
  split.
  - apply (proj1 (http_error_policy (u "10:00") 0 (fun _ => 0) (fun _ => FHttpError 404) true)).
    reflexivity.
  - apply (proj2 (http_error_policy (u "10:00") 0 (fun _ => 0) (fun _ => FHttpError 500) true) 500);
      [discriminate | reflexivity].
Defined.

(** ** C5 *)

(** C5 (counterexample). A response whose parsed index (250) fails the
    range validation is fetched again: three requests in all. *)
Lemma C5_invalid_value_refetched :
  parse_html (u "10:00") out_of_range_page = Some (mk_imeca 250 "Muy Mala" (u "ZMG") (u "10:00") "real") /\
  fst (validate_imeca_data (mk_imeca 250 "Muy Mala" (u "ZMG") (u "10:00") "real")) = false /\
  num_fetches (fst (scrape (u "10:00") 0 (fun _ => FOk out_of_range_page) true)) = 3%nat.
Proof. split; [|split]; vm_compute; reflexivity. Qed.

(** C5 (amended).  Say the attempts before attempt [i] went on to the
    next one (timeout, connection error, HTTP error other than 404, or a
    response whose index failed validation) and attempt [i] gets a
    response.  When no index is found in that page (the parse raises),
    [scrape] stops at once: no further request, then the synthetic
    reading or the error.  An index in [[0, 200]] is returned and no
    further request is made.  An index outside [[0, 200]] is rejected but
    the loop goes on with a new request, at once and without delay,
    unless this was the third and last attempt, after which comes the
    synthetic reading or the error; a page that always gives such an
    index is fetched 3 times. *)
Theorem scrape_after_response (now : ustr) (seed : Z) (fetch : nat -> fetch_outcome) (i : nat)
  (page : soup) (use_mock : bool) :
  (i < Config.MAX_RETRIES)%nat ->
  (forall j, (j < i)%nat -> goes_on (scrape_on_ok now) (fetch j) = true) ->
  fetch i = FOk page ->
  (parse_html now page = None ->
     (exists pre, num_fetches pre = i /\ fst (scrape now seed fetch use_mock) = pre ++ [EFetch i]) /\
     snd (scrape now seed fetch use_mock) =
       if use_mock then Returned (generate_mock_data now seed) else Raised) /\
  (forall d, parse_html now page = Some d -> fst (validate_imeca_data d) = true ->
     (exists pre, num_fetches pre = i /\ fst (scrape now seed fetch use_mock) = pre ++ [EFetch i]) /\
     snd (scrape now seed fetch use_mock) = Returned d) /\
  (forall d, parse_html now page = Some d -> fst (validate_imeca_data d) = false ->
     (i < Config.MAX_RETRIES - 1)%nat ->
     exists pre rest, num_fetches pre = i /\
       fst (scrape now seed fetch use_mock) = pre ++ EFetch i :: EFetch (S i) :: rest) /\
  (forall d, parse_html now page = Some d -> fst (validate_imeca_data d) = false ->
     i = (Config.MAX_RETRIES - 1)%nat ->
     (exists pre, num_fetches pre = i /\ fst (scrape now seed fetch use_mock) = pre ++ [EFetch i]) /\
     snd (scrape now seed fetch use_mock) =
       if use_mock then Returned (generate_mock_data now seed) else Raised) /\
  (forall d, (forall k, fetch k = FOk page) -> parse_html now page = Some d ->
     fst (validate_imeca_data d) = false ->
     scrape now seed fetch use_mock =
       ([EFetch 0; EFetch 1; EFetch 2], if use_mock then Returned (generate_mock_data now seed) else Raised)).
Proof.
  intros Hi Hj Hf.
  split; [|split; [|split; [|split]]]; cycle 4.
  { intros d Hf' Hp Hv. unfold scrape, Config.MAX_RETRIES. cbn [retry_loop]. rewrite !Hf'.
    unfold scrape_on_ok. rewrite Hp, Hv. destruct use_mock; reflexivity. }
  all: destruct (retry_loop_skip (scrape_on_ok now) fetch i 0 Config.MAX_RETRIES ltac:(lia) Hj)
         as (pre & Hpre & Heq).
  all: rewrite scrape_unfold, Heq; cbn [fst snd Nat.add].
  all: replace (Config.MAX_RETRIES - i)%nat with (S (Config.MAX_RETRIES - 1 - i))
         by (unfold Config.MAX_RETRIES in *; lia).
  all: rewrite (retry_loop_ok_at _ _ _ _ page Hf); unfold scrape_on_ok.
  - intros Hp. rewrite Hp. cbn [fst snd]. split; [exists pre; auto | reflexivity].
  - intros d Hp Hv. rewrite Hp, Hv. cbn [fst snd].
    split; [exists pre; auto | reflexivity].
  - intros d Hp Hv Hlt. rewrite Hp, Hv. cbn [fst snd].
    replace (Config.MAX_RETRIES - 1 - i)%nat with (S (Config.MAX_RETRIES - 2 - i))
      by (unfold Config.MAX_RETRIES in *; lia).
    cbn [retry_loop fst]. eexists pre, _. split; [exact Hpre | reflexivity].
  - intros d Hp Hv ->. rewrite Hp, Hv. cbn [fst snd].
    replace (Config.MAX_RETRIES - 1 - (Config.MAX_RETRIES - 1))%nat with 0%nat
      by (unfold Config.MAX_RETRIES; lia).
    cbn [retry_loop fst snd]. split; [exists pre; auto | reflexivity].
Qed.

(** Witness: a timeout, then an HTTP 500, then a page with a valid index;
    the index is returned after three requests. *)
Lemma scrape_after_response_witness :
  (exists pre, num_fetches pre = 2%nat /\
     fst (scrape (u "10:00") 0
            (fun k => match k with O => FTimeout | S O => FHttpError 500 | _ => FOk scenario_page end)
            false) = pre ++ [EFetch 2]) /\
  snd (scrape (u "10:00") 0
         (fun k => match k with O => FTimeout | S O => FHttpError 500 | _ => FOk scenario_page end)
         false) = Returned (mk_imeca 142 "Mala" (u "Las") (u "10:00") "real").
Proof.
  apply (proj1 (proj2 (scrape_after_response (u "10:00") 0
           (fun k => match k with O => FTimeout | S O => FHttpError 500 | _ => FOk scenario_page end)
           2 scenario_page false
           ltac:(unfold Config.MAX_RETRIES; lia)
           ltac:(intros j Hj; destruct j as [|[|j]]; [reflexivity | reflexivity | lia])
           eq_refl))).
  - vm_compute. reflexivity.
  - vm_compute. reflexivity.
Defined.

(** ** C6 *)

(** C6 (counterexample). The reservoir level is a data source whose fetch
    is never retried: when it times out there is one request, not 3. *)
Lemma C6_chapala_single_attempt :
  num_fetches (fst (get_chapala_level_real (u "10:00") (fun _ => FTimeout) true)) = 1%nat.
Proof. reflexivity. Qed.

(** C6 (amended). When every request times out, each air-quality scraper
    makes exactly 3 requests, sleeps 2 s between consecutive ones (twice
    in all) and then returns the synthetic data or raises; the reservoir
    level makes a single request and then returns its fallback or
    raises. *)
Theorem timeout_policy (now : ustr) (seed : Z) (seeds : nat -> Z) (use_mock : bool) :
  scrape now seed (fun _ => FTimeout) use_mock =
    ([EFetch 0; ESleep 2; EFetch 1; ESleep 2; EFetch 2],
     if use_mock then Returned (generate_mock_data now seed) else Raised) /\
  scrape_all_stations now seeds (fun _ => FTimeout) use_mock =
    ([EFetch 0; ESleep 2; EFetch 1; ESleep 2; EFetch 2],
     if use_mock then Returned (generate_mock_stations now seeds) else Raised) /\
  get_chapala_level_real now (fun _ => FTimeout) use_mock =
    ([EFetch 0], if use_mock then Returned (mk_level 9450 "msnm" now "mock" None) else Raised).
Proof. destruct use_mock; repeat split; reflexivity. Qed.

(** ** C7 *)

(** C7. On the scenario page the per-station parser gives "Las Pintas",
    142, "Mala", real; the single-reading parser [_parse_html] gives the
    same index, status and origin but the station "Las": its first
    station pattern is lazy and stops at the first blank. *)
Theorem scenario_extraction (now : ustr) :
  parse_html now scenario_page = Some (mk_imeca 142 "Mala" (u "Las") now "real") /\
  parse_all_stations now scenario_page =
    [mk_station (u "Las Pintas") 142 "Mala" (coords_get (u "Las Pintas")) now "real"].
Proof. split; vm_compute; reflexivity. Qed.

(** ** C3 *)

(** C3 (failing input). When both models raise, a Chivas item is marked
    processed with the local error string as summary, and an
    environmental item (API key configured) is marked processed with the
    local description as summary. *)
Lemma C3_processed_without_remote :
  processed (Chivas.process failing_gen sample_item) = Some true /\
  ai_summary (Chivas.process failing_gen sample_item) =
    Some (u "Error resumiendo noticia: API key not valid") /\
  ~ from_remote failing_gen sample_item (Chivas.process failing_gen sample_item) /\
  processed (Env.process true failing_gen sample_item) = Some true /\
  ~ from_remote failing_gen sample_item (Env.process true failing_gen sample_item).
Proof.
  repeat split; try reflexivity; intros (t & _ & [H | (_ & H)]); discriminate.
Qed.

(** C3 (what the code does).  [processed] does not certify a remote
    summary.  A Chivas item processed with AI always has
    [processed = true]; its summary is the remote text of the first model
    that answers, or else, when both raise, the local string
    "Error resumiendo noticia: <error>" ([resumir_noticia_con_ia] catches
    the error, so the [except] branch of [process_news_with_ai] that would
    set [processed = false] is never reached).  An environmental item has
    [processed] equal to whether an API key is configured; with a key,
    its summary is the remote text of the first model that answers, or
    else the description truncated to 200 characters. *)
Theorem processed_flag (gen : generator) (n : news_item) (has_key : bool) :
  (processed (Chivas.process gen n) = Some true /\
   (from_remote gen n (Chivas.process gen n) \/
    exists e1 e2, gen "gemini-2.5-flash-lite" (title n) (description n) = inr e1 /\
                  gen "gemini-2.5-flash" (title n) (description n) = inr e2 /\
                  ai_summary (Chivas.process gen n) = Some (u "Error resumiendo noticia: " ++ e2))) /\
  (processed (Env.process has_key gen n) = Some has_key /\
   (has_key = true ->
    from_remote gen n (Env.process has_key gen n) \/
    exists e1 e2, gen "gemini-2.5-flash-lite" (title n) (description n) = inr e1 /\
                  gen "gemini-2.5-flash" (title n) (description n) = inr e2 /\
                  ai_summary (Env.process has_key gen n) = Some (truncate200 (description n)))).
Proof.
  split; split; try reflexivity.
  - unfold from_remote, Chivas.process, Chivas.resumir. cbn [ai_summary].
    destruct (gen "gemini-2.5-flash-lite" (title n) (description n)) as [t1|e1] eqn:G1.
    + left. exists t1. auto.
    + destruct (gen "gemini-2.5-flash" (title n) (description n)) as [t2|e2] eqn:G2.
      * left. exists t2. split; [reflexivity|]. right. eauto.
      * right. exists e1, e2. auto.
  - intros ->. unfold from_remote, Env.process, Env.resumir. cbn [ai_summary negb].
    destruct (gen "gemini-2.5-flash-lite" (title n) (description n)) as [t1|e1] eqn:G1.
    + left. exists t1. auto.
    + destruct (gen "gemini-2.5-flash" (title n) (description n)) as [t2|e2] eqn:G2.
      * left. exists t2. split; [reflexivity|]. right. eauto.
      * right. exists e1, e2. auto.
Qed.

Lemma processed_flag_witness :
  processed (Chivas.process failing_gen sample_item) = Some true /\
  (from_remote failing_gen sample_item (Chivas.process failing_gen sample_item) \/
   exists e1 e2, failing_gen "gemini-2.5-flash-lite" (title sample_item) (description sample_item) = inr e1 /\
                 failing_gen "gemini-2.5-flash" (title sample_item) (description sample_item) = inr e2 /\
                 ai_summary (Chivas.process failing_gen sample_item) =
                   Some (u "Error resumiendo noticia: " ++ e2)).
Proof. apply (proj1 (processed_flag failing_gen sample_item true)). Defined.

(** ** C8 *)

(** C8 (counterexample). The Chivas feed does not look at the credential:
    with a model that raises (no usable key) its item is marked
    processed, with the error string as summary.  And the environmental
    feed without AI leaves a 201-character description untruncated. *)
Lemma C8_not_all_feeds_truncate :
  map processed (Chivas.get_news failing_gen [sample_item] true) = [Some true] /\
  map ai_summary (Chivas.get_news failing_gen [sample_item] true) =
    [Some (u "Error resumiendo noticia: API key not valid")] /\
  map ai_summary (Env.get_news false failing_gen [mk_news [] (repeat 97 201) [] [] []] false) =
    [Some (repeat 97 201)] /\
  truncate200 (repeat 97 201) <> repeat 97 201.
Proof.
  repeat split; try reflexivity.
  intros H. apply (f_equal (@length Z)) in H. vm_compute in H. discriminate.
Qed.

(** C8 (amended). With no API key, the environmental news processed with
    AI are, item for item, the feed's items with [processed = false] and
    the description truncated to 200 characters (plus "...") when longer
    than 200 as summary; without AI they carry [processed = false] and the
    description unchanged. *)
Theorem env_news_without_key (gen : generator) (rss : list news_item) :
  map base (Env.get_news false gen rss true) = rss /\
  Forall (fun o => processed o = Some false /\ error o = Some None /\
                   ai_summary o = Some (truncate200 (description (base o))))
         (Env.get_news false gen rss true) /\
  map base (Env.get_news false gen rss false) = rss /\
  Forall (fun o => processed o = Some false /\ ai_summary o = Some (description (base o)))
         (Env.get_news false gen rss false).
Proof.
  destruct rss as [|n rss]; [repeat split; constructor|].
  unfold Env.get_news; cbn [negb]. repeat split.
  - rewrite map_map. apply map_id.
  - apply List.Forall_forall. intros o Ho. apply in_map_iff in Ho as [m [<- _]]. auto.
  - rewrite map_map. apply map_id.
  - apply List.Forall_forall. intros o Ho. apply in_map_iff in Ho as [m [<- _]]. auto.
Qed.

(** ** C9 *)

Lemma ustr_eqb_refl (a : ustr) : ustr_eqb a a = true.
Proof. unfold ustr_eqb. apply bool_decide_eq_true_2. reflexivity. Qed.

Lemma ustr_eqb_neq (a b : ustr) : a <> b -> ustr_eqb a b = false.
Proof. intros H. unfold ustr_eqb. apply bool_decide_eq_false_2. exact H. Qed.

Lemma jget_saved (k : ustr) (d data : json) :
  jget k [(u "date", d); (u "data", data)] =
    if ustr_eqb (u "data") k then Some data else if ustr_eqb (u "date") k then Some d else None.
Proof. reflexivity. Qed.

(** C9. Once [save_daily_cache] has written the file, [load_daily_cache]
    on the same date returns the saved list unchanged, and on any other
    date returns [None]. *)
Theorem daily_cache_roundtrip (disk : fs) (filename : string) (today : ustr) (payload : list json) :
  load_daily_cache (save_daily_cache disk WriteOk filename today (JArr payload)) filename today
    = Some (JArr payload) /\
  (forall day, day <> today ->
     load_daily_cache (save_daily_cache disk WriteOk filename today (JArr payload)) filename day = None).
Proof.
  assert (Hda : ustr_eqb (u "data") (u "date") = false) by reflexivity.
  unfold load_daily_cache, save_daily_cache. rewrite lookup_insert_eq.
  rewrite jget_saved, Hda, ustr_eqb_refl. split.
  - rewrite ustr_eqb_refl, jget_saved, ustr_eqb_refl. reflexivity.
  - intros day Hday. rewrite ustr_eqb_neq by congruence. reflexivity.
Qed.

Lemma daily_cache_roundtrip_witness :
  load_daily_cache (save_daily_cache ∅ WriteOk "noticias.json" (u "2026-10-18") (JArr [JNum 1]))
    "noticias.json" (u "2026-10-19") = None.
Proof.
  apply (proj2 (daily_cache_roundtrip ∅ "noticias.json" (u "2026-10-18") [JNum 1])).
  discriminate.
Defined.

(* ================================================================== *)
(** * Further properties of the code *)

(** ** The retry loops: requests, pauses, exceptions *)

Lemma num_fetches_cons_fetch a tr : num_fetches (EFetch a :: tr) = S (num_fetches tr).
Proof. reflexivity. Qed.

Lemma num_fetches_cons_sleep s tr : num_fetches (ESleep s :: tr) = num_fetches tr.
Proof. reflexivity. Qed.

Lemma sleeps_cons_fetch a tr : sleeps (EFetch a :: tr) = sleeps tr.
Proof. reflexivity. Qed.

Lemma sleeps_cons_sleep s tr : sleeps (ESleep s :: tr) = s :: sleeps tr.
Proof. reflexivity. Qed.

Ltac trace_simpl :=
  rewrite ?num_fetches_cons_fetch, ?num_fetches_cons_sleep, ?sleeps_cons_fetch, ?sleeps_cons_sleep.

(** At most one request per remaining attempt. *)
Lemma retry_loop_fetches {A} (on_ok : soup -> option (A + unit)) fetch attempt n :
  (num_fetches (fst (retry_loop on_ok fetch attempt n)) <= n)%nat.
Proof.
  revert attempt. induction n as [|n IH]; intros attempt; simpl; [apply le_n|].
  destruct (fetch attempt) as [| c | | page].
  - destruct (Nat.ltb _ _); simpl; trace_simpl; specialize (IH (S attempt)); lia.
  - destruct (c =? 404); simpl; trace_simpl; [cbn; lia|]. specialize (IH (S attempt)); lia.
  - destruct (Nat.ltb _ _); simpl; trace_simpl; specialize (IH (S attempt)); lia.
  - destruct (on_ok page) as [[a|[]]|]; simpl; trace_simpl; try (cbn; lia).
    specialize (IH (S attempt)); lia.
Qed.

(** Every pause lasts [RETRY_DELAY] seconds, and only the attempts before
    the last one ([attempt < MAX_RETRIES - 1]) may pause. *)
Lemma retry_loop_sleeps {A} (on_ok : soup -> option (A + unit)) fetch attempt n :
  Forall (fun s => s = Config.RETRY_DELAY) (sleeps (fst (retry_loop on_ok fetch attempt n))) /\
  (length (sleeps (fst (retry_loop on_ok fetch attempt n))) <= Config.MAX_RETRIES - 1 - attempt)%nat.
Proof.
  revert attempt. induction n as [|n IH]; intros attempt; simpl; [split; [constructor | cbn; lia]|].
  unfold Config.MAX_RETRIES in *.
  destruct (IH (S attempt)) as [IHf IHl].
  destruct (fetch attempt) as [| c | | page].
  - destruct (Nat.ltb_spec attempt 2); simpl; trace_simpl;
      [split; [constructor; auto | simpl; lia] | split; [auto | lia]].
  - destruct (c =? 404); simpl; trace_simpl; [split; [constructor | simpl; lia]|].
    split; [auto | lia].
  - destruct (Nat.ltb_spec attempt 2); simpl; trace_simpl;
      [split; [constructor; auto | simpl; lia] | split; [auto | lia]].
  - destruct (on_ok page) as [[a|[]]|]; simpl; trace_simpl;
      try (split; [constructor | simpl; lia]). split; [auto | lia].
Qed.

Lemma scrape_all_stations_trace (now : ustr) (seeds : nat -> Z) (fetch : nat -> fetch_outcome)
  (use_mock : bool) :
  fst (scrape_all_stations now seeds fetch use_mock)
    = fst (retry_loop (stations_on_ok now) fetch 0 Config.MAX_RETRIES).
Proof.
  unfold scrape_all_stations.
  destruct (retry_loop (stations_on_ok now) fetch 0 Config.MAX_RETRIES) as [tr [d|]];
    [|destruct use_mock]; reflexivity.
Qed.

(** Whatever the network does, [scrape] and [scrape_all_stations] send at
    most [MAX_RETRIES] = 3 requests and pause at most twice, 2 seconds
    each time. *)
Theorem scrapers_bounded_retries (now : ustr) (seed : Z) (seeds : nat -> Z)
  (fetch : nat -> fetch_outcome) (use_mock : bool) :
  (num_fetches (fst (scrape now seed fetch use_mock)) <= 3)%nat /\
  Forall (fun s => s = 2) (sleeps (fst (scrape now seed fetch use_mock))) /\
  (length (sleeps (fst (scrape now seed fetch use_mock))) <= 2)%nat /\
  (num_fetches (fst (scrape_all_stations now seeds fetch use_mock)) <= 3)%nat /\
  Forall (fun s => s = 2) (sleeps (fst (scrape_all_stations now seeds fetch use_mock))) /\
  (length (sleeps (fst (scrape_all_stations now seeds fetch use_mock))) <= 2)%nat.
Proof.
  rewrite scrape_trace, scrape_all_stations_trace.
  pose proof (retry_loop_fetches (scrape_on_ok now) fetch 0 Config.MAX_RETRIES) as F1.
  pose proof (retry_loop_fetches (stations_on_ok now) fetch 0 Config.MAX_RETRIES) as F2.
  pose proof (retry_loop_sleeps (scrape_on_ok now) fetch 0 Config.MAX_RETRIES) as [S1 L1].
  pose proof (retry_loop_sleeps (stations_on_ok now) fetch 0 Config.MAX_RETRIES) as [S2 L2].
  unfold Config.MAX_RETRIES, Config.RETRY_DELAY in *. repeat split; auto; lia.
Qed.

(** A connection that keeps failing (any [RequestException] other than a
    timeout or an HTTP error) is treated like a timeout: three requests
    with a 2-second pause after each of the first two. *)
Theorem connection_errors_retried (now : ustr) (seed : Z) (seeds : nat -> Z)
  (fetch : nat -> fetch_outcome) (use_mock : bool) :
  (forall i, fetch i = FConnError) ->
  fst (scrape now seed fetch use_mock) = [EFetch 0; ESleep 2; EFetch 1; ESleep 2; EFetch 2] /\
  fst (scrape_all_stations now seeds fetch use_mock)
    = [EFetch 0; ESleep 2; EFetch 1; ESleep 2; EFetch 2].
Proof.
  intros Hf. rewrite scrape_trace, scrape_all_stations_trace.
  unfold Config.MAX_RETRIES. cbn [retry_loop]. rewrite !Hf. split; reflexivity.
Qed.

Lemma connection_errors_retried_witness :
  fst (scrape (u "10:00") 0 (fun _ => FConnError) true)
    = [EFetch 0; ESleep 2; EFetch 1; ESleep 2; EFetch 2].
Proof. apply (connection_errors_retried (u "10:00") 0 (fun _ => 0) (fun _ => FConnError) true). reflexivity. Defined.

(** With [use_mock_on_error=True], none of the three network readers ever
    raises, whatever the network does. *)
Theorem mock_fallback_never_raises (now : ustr) (seed : Z) (seeds : nat -> Z)
  (fetch : nat -> fetch_outcome) :
  snd (scrape now seed fetch true) <> Raised /\
  snd (scrape_all_stations now seeds fetch true) <> Raised /\
  snd (get_chapala_level_real now fetch true) <> Raised.
Proof.
  unfold scrape, scrape_all_stations, get_chapala_level_real.
  destruct (retry_loop (scrape_on_ok now) fetch 0 Config.MAX_RETRIES) as [? [?|]];
  destruct (retry_loop (stations_on_ok now) fetch 0 Config.MAX_RETRIES) as [? [?|]];
  repeat split; try discriminate;
  destruct (fetch 0%nat) as [| | | page]; try discriminate; cbn [snd];
  destruct (cota_loop (get_text_sp page) cota_patterns) as [[? ?]|]; discriminate.
Qed.

(** ** What the parsers and [scrape] return *)

Lemma map_status_valid (t : ustr) (s : string) :
  map_status t = Some s -> In s Config.VALID_STATUSES.
Proof.
  unfold map_status.
  repeat match goal with |- context [if ?b then _ else _] => destruct b end;
    intros H; inversion H; subst; simpl; tauto.
Qed.

Lemma status_loop_valid (page_text : ustr) (pats : list rx) (s : string) :
  status_loop page_text pats = Some s -> In s Config.VALID_STATUSES.
Proof.
  induction pats as [|p ps IH]; simpl; [discriminate|].
  destruct (grp _ _ _) as [g|]; [|exact IH].
  destruct (map_status g) as [s'|] eqn:E; [|exact IH].
  intros H; injection H as <-. exact (map_status_valid g s' E).
Qed.

Lemma determine_status_valid (v : Z) : In (determine_status v) Config.VALID_STATUSES.
Proof.
  unfold determine_status. simpl.
  destruct (v <=? _); [tauto|]. destruct (v <=? _); [tauto|]. destruct (v <=? 150); tauto.
Qed.

Lemma parse_html_status_valid (now : ustr) (page : soup) (d : imeca_data) :
  parse_html now page = Some d -> In (status d) Config.VALID_STATUSES.
Proof.
  unfold parse_html. destruct (find_imeca page (get_text page)) as [v|]; [|discriminate].
  destruct (status_loop (get_text page) status_patterns) as [s|] eqn:E;
    intros H; injection H as <-.
  - exact (status_loop_valid _ _ s E).
  - apply determine_status_valid.
Qed.

Lemma scrape_returned_cases (now : ustr) (seed : Z) (fetch : nat -> fetch_outcome)
  (use_mock : bool) (d : imeca_data) :
  snd (scrape now seed fetch use_mock) = Returned d ->
  (exists i page, fetch i = FOk page /\ parse_html now page = Some d /\
                  fst (validate_imeca_data d) = true) \/
  d = generate_mock_data now seed.
Proof.
  unfold scrape.
  destruct (retry_loop (scrape_on_ok now) fetch 0 Config.MAX_RETRIES) as [tr [d'|]] eqn:E.
  - simpl. intros H; injection H as <-. left.
    destruct (retry_loop_returned (scrape_on_ok now) fetch 0 Config.MAX_RETRIES d')
      as [i [page [Hp Ho]]]; [rewrite E; reflexivity|].
    exists i, page. split; [exact Hp|]. unfold scrape_on_ok in Ho.
    destruct (parse_html now page) as [d''|]; [|discriminate].
    destruct (fst (validate_imeca_data d'')) eqn:V; [|discriminate].
    injection Ho as <-. auto.
  - destruct use_mock; simpl; [|discriminate]. intros H; injection H as <-. right; reflexivity.
Qed.

Lemma generate_mock_data_valid (now : ustr) (seed : Z) :
  fst (validate_imeca_data (generate_mock_data now seed)) = true /\
  In (status (generate_mock_data now seed)) Config.VALID_STATUSES.
Proof.
  pose proof (randint_bounds 45 115 seed ltac:(lia)).
  unfold validate_imeca_data, generate_mock_data, Config.IMECA_MIN, Config.IMECA_MAX.
  cbn [imeca status]. split; [|apply determine_status_valid].
  destruct (Z.leb_spec 0 (randint 45 115 seed)); [|lia].
  destruct (Z.leb_spec (randint 45 115 seed) 200); [reflexivity|lia].
Qed.

(** Every reading [scrape] returns, real or synthetic, passes
    [validate_imeca_data] (its index lies in [[0, 200]]) and carries one
    of the four [VALID_STATUSES]. *)
Theorem scrape_returns_valid (now : ustr) (seed : Z) (fetch : nat -> fetch_outcome)
  (use_mock : bool) (d : imeca_data) :
  snd (scrape now seed fetch use_mock) = Returned d ->
  fst (validate_imeca_data d) = true /\ 0 <= imeca d <= 200 /\ In (status d) Config.VALID_STATUSES.
Proof.
  intros H.
  assert (Hv : fst (validate_imeca_data d) = true /\ In (status d) Config.VALID_STATUSES).
  { destruct (scrape_returned_cases now seed fetch use_mock d H) as [[i [page [_ [Hp Hv]]]] | ->].
    - split; [exact Hv | exact (parse_html_status_valid now page d Hp)].
    - apply generate_mock_data_valid. }
  destruct Hv as [Hv Hs]. split; [exact Hv|]. split; [|exact Hs].
  unfold validate_imeca_data, Config.IMECA_MIN, Config.IMECA_MAX in Hv.
  destruct (Z.leb_spec 0 (imeca d)); destruct (Z.leb_spec (imeca d) 200); simpl in Hv;
    try discriminate; lia.
Qed.

Lemma scrape_returns_valid_witness :
  snd (scrape (u "10:00") 7 (fun _ => FTimeout) true) = Returned (generate_mock_data (u "10:00") 7) /\
  0 <= imeca (generate_mock_data (u "10:00") 7) <= 200.
Proof.
  split; [reflexivity|].
  apply (scrape_returns_valid (u "10:00") 7 (fun _ => FTimeout) true). reflexivity.
Defined.

(** [plot_imeca_gauge] never falls back to its grey bar for a reading of
    [scrape]: the status always has an entry in [color_map]. *)
Theorem gauge_color_never_gray (now : ustr) (seed : Z) (fetch : nat -> fetch_outcome)
  (use_mock : bool) (d : imeca_data) :
  snd (scrape now seed fetch use_mock) = Returned d ->
  gauge_color (status d) <> "gray".
Proof.
  intros H.
  assert (Hs : In (status d) Config.VALID_STATUSES).
  { destruct (scrape_returned_cases now seed fetch use_mock d H) as [[i [page [_ [Hp _]]]] | ->].
    - exact (parse_html_status_valid now page d Hp).
    - apply generate_mock_data_valid. }
  simpl in Hs. destruct Hs as [<-|[<-|[<-|[<-|[]]]]]; discriminate.
Qed.

Lemma gauge_color_never_gray_witness :
  snd (scrape (u "10:00") 3 (fun _ => FConnError) true) = Returned (generate_mock_data (u "10:00") 3) /\
  gauge_color (status (generate_mock_data (u "10:00") 3)) <> "gray".
Proof.
  split; [reflexivity|].
  apply (gauge_color_never_gray (u "10:00") 3 (fun _ => FConnError) true). reflexivity.
Defined.

(** ** Text fragments *)

Lemma in_firstn_in {A} (x : A) n (l : list A) : In x (firstn n l) -> In x l.
Proof. intros H. rewrite <- (firstn_skipn n l). apply in_or_app. left; exact H. Qed.

Lemma in_skipn_in {A} (x : A) n (l : list A) : In x (skipn n l) -> In x l.
Proof. intros H. rewrite <- (firstn_skipn n l). apply in_or_app. right; exact H. Qed.

Lemma lstrip_suffix (s : ustr) : exists a, s = a ++ lstrip s.
Proof.
  induction s as [|c r IH]; [exists []; reflexivity|]. simpl.
  destruct (is_space c).
  - destruct IH as [a Ha]. exists (c :: a). simpl. f_equal. exact Ha.
  - exists []. reflexivity.
Qed.

(** [strip] keeps a contiguous piece of its argument. *)
Lemma strip_infix (s : ustr) : exists a b, s = a ++ strip s ++ b.
Proof.
  destruct (lstrip_suffix s) as [a Ha].
  destruct (lstrip_suffix (rev (lstrip s))) as [b Hb].
  exists a, (rev b). unfold strip. rewrite Ha at 1. f_equal.
  set (X := lstrip s) in *. set (Y := lstrip (rev X)) in *.
  transitivity (rev (rev X)); [symmetry; apply rev_involutive|].
  rewrite Hb, rev_app_distr. reflexivity.
Qed.

Lemma in_strip_in (c : Z) (s : ustr) : In c (strip s) -> In c s.
Proof.
  intros H. destruct (strip_infix s) as [a [b Hs]]. rewrite Hs.
  apply in_or_app. right. apply in_or_app. left. exact H.
Qed.

Lemma group_in (txt : ustr) (cs : caps) (n : nat) (g : ustr) (c : Z) :
  group txt cs n = Some g -> In c g -> In c txt.
Proof.
  unfold group. destruct (find _ cs) as [[? [a b]]|]; [|discriminate].
  intros H; injection H as <-. intros H. apply in_skipn_in with (n := a).
  apply in_firstn_in with (n := (b - a)%nat). exact H.
Qed.

(** ** [_parse_html]: station and index *)

Lemma known_stations_nonempty : Forall (fun k => u k <> []) known_stations.
Proof. unfold known_stations. repeat constructor; vm_compute; discriminate. Qed.

Lemma find_station_nonempty (page_text : ustr) : find_station page_text <> [].
Proof.
  unfold find_station.
  destruct (station_loop page_text station_patterns None) as [[|c st]|]; [| discriminate |];
  (destruct (find _ known_stations) as [k|] eqn:E; [|vm_compute; discriminate]);
  apply find_some in E as [Hin _];
  exact (proj1 (List.Forall_forall _ _) known_stations_nonempty k Hin).
Qed.

(** [_parse_html] always names a station: the matched name, else a known
    station mentioned on the page, else ["ZMG"]; never the empty string. *)
Theorem parse_html_station_nonempty (now : ustr) (page : soup) (d : imeca_data) :
  parse_html now page = Some d -> station d <> [].
Proof.
  unfold parse_html. destruct (find_imeca page (get_text page)) as [v|]; [|discriminate].
  intros H; injection H as <-. apply find_station_nonempty.
Qed.

Lemma parse_html_station_nonempty_witness :
  station (mk_imeca 85 "Regular" (u "ZMG") (u "10:00") "real") <> [].
Proof.
  apply (parse_html_station_nonempty (u "10:00")
           (mk_soup [u "Calidad del aire"] [u "Indice 85"] [])).
  vm_compute. reflexivity.
Defined.

Lemma first_number_in_range_bounds (texts : list ustr) (v : Z) :
  first_number_in_range texts = Some v -> 0 <= v <= 200.
Proof.
  induction texts as [|t ts IH]; simpl; [discriminate|].
  destruct (grp _ _ _) as [g|]; [|exact IH].
  destruct (Z.leb_spec 0 (int_of g)); destruct (Z.leb_spec (int_of g) 200); simpl;
    try exact IH. intros Hv; injection Hv as <-. lia.
Qed.

(** Only the first strategy of [_parse_html] (the "N puntos IMECA"
    phrase) can yield an index outside [[0, 200]]: on a page without that
    phrase, every index it returns lies in [[0, 200]]. *)
Theorem parse_html_fallback_in_range (now : ustr) (page : soup) (d : imeca_data) :
  search (get_text page) imeca_pattern = None ->
  parse_html now page = Some d -> 0 <= imeca d <= 200.
Proof.
  intros Hs. unfold parse_html, find_imeca. unfold grp at 1. rewrite Hs.
  destruct (first_number_in_range (headers page)) as [v|] eqn:E1.
  { intros H; injection H as <-. exact (first_number_in_range_bounds _ v E1). }
  destruct (first_number_in_range (classed page)) as [v|] eqn:E2.
  { intros H; injection H as <-. exact (first_number_in_range_bounds _ v E2). }
  destruct (search (get_text page) imeca_context_pattern) as [m|]; [|discriminate].
  match goal with |- context [int_of ?g] => set (w := int_of g) end.
  destruct (Z.leb_spec 0 w); destruct (Z.leb_spec w 200); simpl; try discriminate.
  intros Hv; injection Hv as <-. simpl. lia.
Qed.

Lemma parse_html_fallback_in_range_witness :
  0 <= imeca (mk_imeca 85 "Regular" (u "ZMG") (u "10:00") "real") <= 200.
Proof.
  apply (parse_html_fallback_in_range (u "10:00")
           (mk_soup [u "Calidad del aire"] [u "Indice 85"] []));
    vm_compute; reflexivity.
Defined.

(** ** [_parse_all_stations] and [scrape_all_stations] *)

Lemma Forall_imap_in {A B} (P : B -> Prop) (f : nat -> A -> B) (l : list A) :
  (forall i x, In x l -> P (f i x)) -> Forall P (imap f l).
Proof.
  revert f. induction l as [|x l IH]; intros f Hf; [constructor|].
  rewrite imap_cons. constructor.
  - apply Hf. left; reflexivity.
  - apply IH. intros i y Hy. apply Hf. right; exact Hy.
Qed.

Lemma station_coords_registered :
  Forall (fun e => coords_get (fst e) = Some (snd e)) STATION_COORDS.
Proof. unfold STATION_COORDS. repeat constructor; vm_compute; reflexivity. Qed.

(** Every station record [scrape_all_stations] returns, parsed or
    synthetic, has the status [_determine_status] gives for its index, and
    the coordinates [STATION_COORDS] has for its name ([None] when the
    name is not registered). *)
Theorem scrape_all_stations_consistent (now : ustr) (seeds : nat -> Z)
  (fetch : nat -> fetch_outcome) (use_mock : bool) (st : list station_rec) :
  snd (scrape_all_stations now seeds fetch use_mock) = Returned st ->
  Forall station_consistent st.
Proof.
  unfold scrape_all_stations.
  destruct (retry_loop (stations_on_ok now) fetch 0 Config.MAX_RETRIES) as [tr [st'|]] eqn:E.
  - simpl. intros H; injection H as <-.
    destruct (retry_loop_returned (stations_on_ok now) fetch 0 Config.MAX_RETRIES st')
      as [i [page [_ Ho]]]; [rewrite E; reflexivity|].
    unfold stations_on_ok in Ho.
    destruct (parse_all_stations now page) as [|r rs] eqn:Ep; [discriminate|].
    injection Ho as <-. rewrite <- Ep. unfold parse_all_stations.
    apply List.Forall_forall. intros x Hx. apply in_map_iff in Hx as [cs [<- _]].
    split; reflexivity.
  - destruct use_mock; simpl; [|discriminate]. intros H; injection H as <-.
    unfold generate_mock_stations. apply Forall_imap_in. intros i e He.
    split; [reflexivity|]. cbn [st_coords st_name].
    symmetry. exact (proj1 (List.Forall_forall _ _) station_coords_registered e He).
Qed.

Lemma scrape_all_stations_consistent_witness :
  Forall station_consistent (generate_mock_stations (u "10:00") (fun i => Z.of_nat i * 37)).
Proof.
  apply (scrape_all_stations_consistent (u "10:00") (fun i => Z.of_nat i * 37)
           (fun _ => FTimeout) true).
  reflexivity.
Defined.

(** [r"(\\d{1,2}):(\\d{2})"] needs a backslash where it starts. *)
Lemma hour_pattern_raw_needs_backslash (t : ustr) (fuel i : nat) cs k :
  ~ In 92 t -> mt t fuel hour_pattern_raw i cs k = None.
Proof.
  intros Hn. destruct fuel as [|[|[|[|f]]]]; try reflexivity. simpl.
  unfold at_. destruct (nth_error t i) as [c|] eqn:E; [|reflexivity].
  destruct (Z.eqb_spec c 92) as [->|]; [|reflexivity].
  exfalso. apply Hn. exact (nth_error_In t i E).
Qed.

Lemma search_from_hour_pattern_raw (t : ustr) (n i : nat) :
  ~ In 92 t -> search_from t n hour_pattern_raw i = None.
Proof.
  intros Hn. revert i. induction n as [|n IH]; intros i; simpl;
    unfold match_at; rewrite hour_pattern_raw_needs_backslash by exact Hn; [reflexivity|].
  apply IH.
Qed.

Lemma time_loop_raw_default (page_text : ustr) (pats : list rx) (dflt : ustr) :
  ~ In 92 page_text -> time_loop hour_pattern_raw page_text pats dflt = dflt.
Proof.
  intros Hn. induction pats as [|p ps IH]; simpl; [reflexivity|].
  destruct (grp page_text (search page_text p) 1) as [g|] eqn:E; [|exact IH].
  unfold convert_time, search. rewrite search_from_hour_pattern_raw; [reflexivity|].
  intros Hin. apply Hn. apply in_strip_in in Hin.
  unfold grp in E. destruct (search page_text p) as [[[? ?] cs]|]; [|discriminate].
  exact (group_in page_text cs 1 g 92 E Hin).
Qed.

Lemma no_backslash_spec (t : ustr) : no_backslash t = true -> ~ In 92 t.
Proof.
  unfold no_backslash. intros H Hin. apply negb_true_iff in H.
  assert (existsb (fun c => c =? 92) t = true) by (apply existsb_exists; exists 92; split; [exact Hin | apply Z.eqb_refl]).
  congruence.
Qed.

(** [_parse_all_stations] never takes the time printed on the page: its
    hour pattern is a raw string with a doubled backslash, which needs a
    backslash character in the text, so on any page without one every
    station gets the current time. *)
Theorem parse_all_stations_time_is_now (now : ustr) (page : soup) :
  ~ In 92 (get_text_sp page) ->
  Forall (fun r => st_last_update r = now) (parse_all_stations now page).
Proof.
  intros Hn. unfold parse_all_stations. rewrite time_loop_raw_default by exact Hn.
  apply List.Forall_forall. intros x Hx. apply in_map_iff in Hx as [cs [<- _]]. reflexivity.
Qed.

Lemma parse_all_stations_time_is_now_witness :
  Forall (fun r => st_last_update r = u "10:00")
    (parse_all_stations (u "10:00")
       (text_page "Nivel máximo registrado 142 puntos IMECA en Las Pintas 07:30 p.m. - LUNES")).
Proof.
  apply parse_all_stations_time_is_now. apply no_backslash_spec. vm_compute. reflexivity.
Defined.

(** ** The RSS readers *)

Lemma split_at_gt_some (r b rest : ustr) :
  split_at_gt r = Some (b, rest) -> r = b ++ 62 :: rest /\ ~ In 62 b.
Proof.
  revert b. induction r as [|c r IH]; intros b; simpl; [discriminate|].
  destruct (Z.eqb_spec c 62) as [->|Hc].
  - intros H; injection H as <- <-. split; [reflexivity | intros []].
  - destruct (split_at_gt r) as [[b' rest']|]; [|discriminate].
    intros H; injection H as <- <-. destruct (IH b' eq_refl) as [-> Hb].
    split; [reflexivity|]. intros [E|E]; [congruence | exact (Hb E)].
Qed.

Lemma split_at_gt_none (r : ustr) : split_at_gt r = None -> ~ In 62 r.
Proof.
  induction r as [|c r IH]; simpl; [intros _ []|].
  destruct (Z.eqb_spec c 62); [discriminate|].
  destruct (split_at_gt r) as [[? ?]|]; [discriminate|].
  intros _ [E|E]; [congruence | exact (IH eq_refl E)].
Qed.

Lemma strip_tags_go_in (f : nat) (s : ustr) (x : Z) : In x (strip_tags_go f s) -> In x s.
Proof.
  revert s. induction f as [|f IH]; intros s; simpl; [intros []|].
  destruct s as [|c r]; [intros []|].
  assert (Hk : In x (c :: strip_tags_go f r) -> In x (c :: r))
    by (intros [E|E]; [left; exact E | right; exact (IH r E)]).
  destruct (c =? 60); [|exact Hk].
  destruct (split_at_gt r) as [[[|y b] rest]|] eqn:E; try exact Hk.
  intros Hx. apply split_at_gt_some in E as [-> _]. right.
  apply in_or_app. right. right. exact (IH rest Hx).
Qed.

Lemma lt_ok_cons (c : Z) (o : ustr) :
  lt_ok o -> (c = 60 -> hd_error o = Some 62 \/ ~ In 62 o) -> lt_ok (c :: o).
Proof.
  intros Ho Hc [|x a] c' E; simpl in E; injection E as E1 E2.
  - subst. exact (Hc eq_refl).
  - exact (Ho a c' E2).
Qed.

Lemma strip_tags_go_lt_ok (f : nat) (s : ustr) : lt_ok (strip_tags_go f s).
Proof.
  revert s. induction f as [|f IH]; intros s; simpl.
  { intros [|? ?] ? E; discriminate. }
  destruct s as [|c r]; [intros [|? ?] ? E; discriminate|].
  destruct (Z.eqb_spec c 60) as [->|Hc].
  - destruct (split_at_gt r) as [[[|y b] rest]|] eqn:E.
    + apply lt_ok_cons; [apply IH|]. intros _.
      apply split_at_gt_some in E as [-> _]. destruct f as [|f']; simpl; [right; intros []|].
      left; reflexivity.
    + apply IH.
    + apply lt_ok_cons; [apply IH|]. intros _. right. intros Hin.
      exact (split_at_gt_none r E (strip_tags_go_in f r 62 Hin)).
  - apply lt_ok_cons; [apply IH|]. intros E; congruence.
Qed.

Lemma lt_ok_no_tag (o : ustr) : lt_ok o -> ~ has_tag o.
Proof.
  intros Ho [a [b [c [E [Hb Hn]]]]].
  destruct (Ho a (b ++ 62 :: c) E) as [Hh|Hi].
  - destruct b as [|y b]; [congruence|]. simpl in Hh. injection Hh as ->. apply Hn. left; reflexivity.
  - apply Hi. apply in_or_app. right. left. reflexivity.
Qed.

Lemma has_tag_infix (x y s : ustr) : has_tag s -> has_tag (x ++ s ++ y).
Proof.
  intros [a [b [c [-> Hb]]]]. exists (x ++ a), b, (c ++ y). split; [|exact Hb].
  rewrite <- !app_assoc. simpl. rewrite <- app_assoc. reflexivity.
Qed.

Lemma lstrip_head (s c : ustr) (x : Z) : lstrip s = x :: c -> is_space x = false.
Proof.
  induction s as [|y r IH]; simpl; [discriminate|].
  destruct (is_space y) eqn:E; [exact IH|]. intros H; injection H as <- _. exact E.
Qed.

Lemma strip_trimmed (s : ustr) : trimmed (strip s).
Proof.
  unfold strip. split.
  - intros c r E.
    destruct (lstrip_suffix (rev (lstrip s))) as [a Ha].
    assert (Hl : lstrip (rev (lstrip s)) = rev r ++ [c]).
    { rewrite <- (rev_involutive (lstrip (rev (lstrip s)))), E. reflexivity. }
    rewrite Hl, app_assoc in Ha.
    assert (Hs : lstrip s = c :: rev (a ++ rev r)).
    { rewrite <- (rev_involutive (lstrip s)), Ha, rev_app_distr. reflexivity. }
    exact (lstrip_head s _ c Hs).
  - intros c r E.
    assert (Hl : lstrip (rev (lstrip s)) = c :: rev r).
    { rewrite <- (rev_involutive (lstrip (rev (lstrip s)))), E, rev_app_distr. reflexivity. }
    exact (lstrip_head _ _ c Hl).
Qed.

Lemma news_of_entry_clean (e : rss_entry) :
  ~ has_tag (description (news_of_entry e)) /\ trimmed (description (news_of_entry e)).
Proof.
  unfold news_of_entry. cbn [description]. split; [|apply strip_trimmed].
  set (t := strip_tags _). intros Ht.
  destruct (strip_infix t) as [x [y Hxy]].
  apply (lt_ok_no_tag t); [apply strip_tags_go_lt_ok|].
  rewrite Hxy. apply has_tag_infix. exact Ht.
Qed.

(** The description of every item of either feed has no HTML tag left
    (no match of [<[^>]+>]) and no white space at either end. *)
Theorem rss_descriptions_clean (max_items : option Z) (entries : list rss_entry) :
  Forall (fun n => ~ has_tag (description n) /\ trimmed (description n))
    (get_env_news_rss max_items entries) /\
  Forall (fun n => ~ has_tag (description n) /\ trimmed (description n))
    (get_chivas_news_rss max_items entries).
Proof.
  unfold get_env_news_rss, get_chivas_news_rss.
  split; apply List.Forall_forall; intros n Hn; apply in_map_iff in Hn as [e [<- _]];
    apply news_of_entry_clean.
Qed.

Lemma py_take_length {A} (n : Z) (l : list A) :
  length (py_take n l) =
    if 0 <=? n then Nat.min (Z.to_nat n) (length l)
    else (length l - Z.to_nat (- n))%nat.
Proof.
  unfold py_take. destruct (Z.leb_spec 0 n).
  - apply length_firstn.
  - rewrite length_firstn. lia.
Qed.

(** How many items the readers return: [max_items] items at most; a
    missing [max_items] and [max_items=0] both mean [MAX_NEWS] = 5; a
    negative [max_items] drops that many items from the end of the feed
    ([entries[:max_items]]). *)
Theorem rss_item_count (entries : list rss_entry) :
  (forall m, m = None \/ m = Some 0 ->
     length (get_env_news_rss m entries) = Nat.min 5 (length entries) /\
     length (get_chivas_news_rss m entries) = Nat.min 5 (length entries)) /\
  (forall n, 0 < n ->
     length (get_env_news_rss (Some n) entries) = Nat.min (Z.to_nat n) (length entries) /\
     length (get_chivas_news_rss (Some n) entries) = Nat.min (Z.to_nat n) (length entries)) /\
  (forall n, n < 0 ->
     length (get_env_news_rss (Some n) entries) = (length entries - Z.to_nat (- n))%nat /\
     length (get_chivas_news_rss (Some n) entries) = (length entries - Z.to_nat (- n))%nat).
Proof.
  unfold get_env_news_rss, get_chivas_news_rss. split; [|split].
  - intros m [->| ->]; rewrite !length_map, !py_take_length; simpl; split; reflexivity.
  - intros n Hn. assert (Hd : max_or_default (Some n) = n) by (destruct n; simpl; lia).
    rewrite !length_map, Hd, !py_take_length.
    destruct (Z.leb_spec 0 n); [split; reflexivity | lia].
  - intros n Hn. assert (Hd : max_or_default (Some n) = n) by (destruct n; simpl; lia).
    rewrite !length_map, Hd, !py_take_length.
    destruct (Z.leb_spec 0 n); [lia | split; reflexivity].
Qed.

Lemma rss_item_count_witness :
  length (get_env_news_rss (Some 0) (map sample_entry [1; 2; 3; 4; 5; 6; 7])) = 5%nat /\
  length (get_chivas_news_rss (Some (-2)) (map sample_entry [1; 2; 3; 4; 5; 6; 7])) = 5%nat.
Proof.
  split.
  - apply (proj1 (proj1 (rss_item_count (map sample_entry [1; 2; 3; 4; 5; 6; 7])) (Some 0)
                    (or_intror eq_refl))).
  - apply (proj2 (proj2 (proj2 (rss_item_count (map sample_entry [1; 2; 3; 4; 5; 6; 7])))
                    (-2) ltac:(lia))).
Defined.

(** [create_html_content] never asks the summariser: its two news lists
    are the same whatever the model does and whether a key is set, and
    each has at most 4 items. *)
Theorem briefing_news_without_ai (k1 k2 : bool) (g1 g2 : generator)
  (env_entries chivas_entries : list rss_entry) :
  briefing_news k1 g1 env_entries chivas_entries = briefing_news k2 g2 env_entries chivas_entries /\
  (length (fst (briefing_news k1 g1 env_entries chivas_entries)) <= 4)%nat /\
  (length (snd (briefing_news k1 g1 env_entries chivas_entries)) <= 4)%nat.
Proof.
  unfold briefing_news, get_env_news, get_chivas_news, Env.get_news, Chivas.get_news.
  cbn [fst snd negb]. split.
  - destruct (get_env_news_rss (Some 4) env_entries);
    destruct (get_chivas_news_rss (Some 4) chivas_entries); reflexivity.
  - unfold get_env_news_rss, get_chivas_news_rss.
    assert (Le : forall {A} (l : list A), Nat.le (length (py_take (max_or_default (Some 4)) l)) 4)
      by (intros A l; rewrite py_take_length; cbn -[Nat.min]; lia).
    split.
    + destruct (map news_of_entry (py_take (max_or_default (Some 4)) env_entries)) as [|n ns] eqn:E;
        [simpl; lia|].
      rewrite <- E. destruct false; rewrite !length_map; apply Le.
    + destruct (map news_of_entry (py_take (max_or_default (Some 4)) chivas_entries)) as [|n ns] eqn:E;
        [simpl; lia|].
      rewrite <- E. simpl. rewrite !length_map; apply Le.
Qed.

(** ** The daily cache *)



(** ** [_parse_html]: the update time *)

Lemma in_zrange (lo x : Z) (n : nat) : lo <= x < lo + Z.of_nat n -> In x (zrange lo n).
Proof.
  intros H. apply in_map_iff. exists (Z.to_nat (x - lo)). split; [lia|]. apply in_seq. lia.
Qed.

Lemma time_table : forallb (fun h => forallb (fun m => time_row_ok h m) (zrange 0 60)) (zrange 1 12) = true.
Proof. vm_compute. reflexivity. Qed.

Lemma convert_time_matched (hp : rx) (t d : ustr) :
  found (search t hp) = true -> convert_time hp t d = convert_time hp t [].
Proof. unfold convert_time. destruct (search t hp) as [[[s e] cs]|]; [reflexivity | discriminate]. Qed.

(** How [_parse_html] turns a 12-hour time into [HH:MM]: ["h:mm p.m."]
    becomes hour [h + 12] (12 stays 12), ["h:mm a.m."] becomes hour [h]
    (12 becomes 00), zero-padded; but with the suffix written ["p.m"]
    (no final dot, which the time pattern accepts) neither branch
    applies and the time is kept as ["h:mm"], without the 12 hours. *)
Theorem convert_time_12h (h m : Z) (dflt : ustr) :
  1 <= h <= 12 -> 0 <= m <= 59 ->
  convert_time hour_pattern (clock_str h m " p.m.") dflt
    = pad2 (if h =? 12 then 12 else h + 12) ++ [58] ++ pad2 m /\
  convert_time hour_pattern (clock_str h m " a.m.") dflt
    = pad2 (if h =? 12 then 0 else h) ++ [58] ++ pad2 m /\
  convert_time hour_pattern (clock_str h m " p.m") dflt = show_nat h ++ [58] ++ pad2 m.
Proof.
  intros Hh Hm.
  pose proof time_table as T. rewrite forallb_forall in T.
  specialize (T h (in_zrange 1 h 12 ltac:(simpl; lia))). rewrite forallb_forall in T.
  specialize (T m (in_zrange 0 m 60 ltac:(simpl; lia))). unfold time_row_ok in T.
  repeat rewrite andb_true_iff in T.
  destruct T as [[[[[P1 E1] P2] E2] P3] E3].
  rewrite !(convert_time_matched _ _ dflt) by assumption.
  unfold ustr_eqb in E1, E2, E3. apply bool_decide_eq_true_1 in E1, E2, E3.
  split; [exact E1 | split; [exact E2 | exact E3]].
Qed.

Lemma convert_time_12h_witness :
  convert_time hour_pattern (clock_str 7 30 " p.m.") (u "10:00") = u "19:30" /\
  convert_time hour_pattern (clock_str 12 5 " a.m.") (u "10:00") = u "00:05" /\
  convert_time hour_pattern (clock_str 7 30 " p.m") (u "10:00") = u "7:30".
Proof.
  destruct (convert_time_12h 7 30 (u "10:00") ltac:(lia) ltac:(lia)) as [A _].
  destruct (convert_time_12h 12 5 (u "10:00") ltac:(lia) ltac:(lia)) as [_ [B _]].
  destruct (convert_time_12h 7 30 (u "10:00") ltac:(lia) ltac:(lia)) as [_ [_ C]].
  rewrite A, B, C. split; [|split]; reflexivity.
Defined.

(** ** [get_chapala_level_real] *)

Lemma firstn_skipn_infix {A} (k start : nat) (l : list A) :
  exists a b, l = a ++ firstn k (skipn start l) ++ b.
Proof.
  exists (firstn start l), (skipn k (skipn start l)).
  rewrite firstn_skipn. symmetry. apply firstn_skipn.
Qed.

Lemma cota_loop_snippet (t : ustr) (pats : list rx) (v : Z) (snip : ustr) :
  cota_loop t pats = Some (v, snip) -> exists a b, t = a ++ snip ++ b.
Proof.
  induction pats as [|p ps IH]; simpl; [discriminate|].
  destruct (search t p) as [[[s e] cs]|]; [|exact IH].
  intros H; injection H as _ <-. apply firstn_skipn_infix.
Qed.

(** A real reservoir reading comes from the single request and keeps,
    as [raw_snippet], a piece of that page's text; every other outcome
    is the fixed synthetic reading (94.50 msnm, no snippet) or an
    exception. *)
Theorem chapala_reading_origin (now : ustr) (fetch : nat -> fetch_outcome) (use_mock : bool)
  (l : water_level) :
  snd (get_chapala_level_real now fetch use_mock) = Returned l ->
  (wl_source l = "real" /\
   exists page snip a b, fetch 0%nat = FOk page /\ raw_snippet l = Some snip /\
                         get_text_sp page = a ++ snip ++ b) \/
  (use_mock = true /\ l = mk_level 9450 "msnm" now "mock" None).
Proof.
  unfold get_chapala_level_real. cbn [snd].
  assert (Hm : (if use_mock then Returned (mk_level 9450 "msnm" now "mock" None) else Raised)
                 = Returned l -> use_mock = true /\ l = mk_level 9450 "msnm" now "mock" None)
    by (destruct use_mock; [intros H; injection H as <-; auto | discriminate]).
  destruct (fetch 0%nat) as [| | | page] eqn:F; try (intros H; right; exact (Hm H)).
  destruct (cota_loop (get_text_sp page) cota_patterns) as [[v snip]|] eqn:C;
    [|intros H; right; exact (Hm H)].
  intros H; injection H as <-. left. split; [reflexivity|].
  destruct (cota_loop_snippet _ _ v snip C) as [a [b Hab]].
  exists page, snip, a, b. auto.
Qed.

Lemma chapala_reading_origin_witness :
  (wl_source (mk_level 9452 "msnm" (u "10:00") "real" (Some (u "Cota: 94.52 msnm"))) = "real" /\
   exists page snip a b,
     FOk (text_page "Cota: 94.52 msnm") = FOk page /\
     raw_snippet (mk_level 9452 "msnm" (u "10:00") "real" (Some (u "Cota: 94.52 msnm"))) = Some snip /\
     get_text_sp page = a ++ snip ++ b) \/
  (true = true /\
   mk_level 9452 "msnm" (u "10:00") "real" (Some (u "Cota: 94.52 msnm"))
     = mk_level 9450 "msnm" (u "10:00") "mock" None).
Proof.
  apply (chapala_reading_origin (u "10:00") (fun _ => FOk (text_page "Cota: 94.52 msnm")) true).
  vm_compute. reflexivity.
Defined.

(** ** What the dashboard shows for a news item *)

Lemma truncate200_nonempty (d : ustr) : d <> [] -> truncate200 d <> [].
Proof.
  unfold truncate200. destruct (Nat.ltb 200 (length d)); [|auto].
  intros _. destruct (firstn 200 d); discriminate.
Qed.

(** The environment tab puts a description under the "Resumen" label in
    two cases, whatever the key configuration: with AI off it shows the
    whole description there (not cut at 200 characters); with AI on, an
    item for which no model answered (no API key, or both models raised
    on that item) shows its description truncated as [truncate200] does:
    cut at 200 characters plus "..." when longer, whole otherwise. *)
Theorem env_tab_shows_description (has_key : bool) (gen : generator) (max_items : option Z)
  (entries : list rss_entry) :
  Forall (fun n => description (base n) <> [] -> env_news_shown n = Resumen (description (base n)))
    (get_env_news has_key gen max_items false entries) /\
  Forall (fun n => description (base n) <> [] ->
                   (has_key = false \/
                    exists e1 e2,
                      gen "gemini-2.5-flash-lite" (title (base n)) (description (base n)) = inr e1 /\
                      gen "gemini-2.5-flash" (title (base n)) (description (base n)) = inr e2) ->
                   env_news_shown n = Resumen (truncate200 (description (base n))))
    (get_env_news has_key gen max_items true entries).
Proof.
  unfold get_env_news, Env.get_news. split.
  - destruct (get_env_news_rss max_items entries) as [|x xs]; [constructor|].
    apply List.Forall_forall. intros n Hn. apply in_map_iff in Hn as [it [<- _]].
    unfold env_news_shown. cbn [ai_summary base]. intros Hd.
    destruct (description it) as [|c r]; [congruence|]. reflexivity.
  - destruct (get_env_news_rss max_items entries) as [|x xs]; [constructor|].
    apply List.Forall_forall. intros n Hn. apply in_map_iff in Hn as [it [<- _]].
    intros Hd Hfail. unfold env_news_shown, Env.process, Env.resumir in *. cbn [ai_summary base] in *.
    assert (Hs : (if negb has_key then truncate200 (description it)
                  else match gen "gemini-2.5-flash-lite" (title it) (description it) with
                       | inl t => strip t
                       | inr _ =>
                         match gen "gemini-2.5-flash" (title it) (description it) with
                         | inl t => strip t
                         | inr _ => truncate200 (description it)
                         end
                       end) = truncate200 (description it)).
    { destruct Hfail as [-> | (e1 & e2 & G1 & G2)]; [reflexivity|].
      rewrite G1, G2. destruct has_key; reflexivity. }
    rewrite Hs.
    pose proof (truncate200_nonempty _ Hd) as Ht.
    destruct (truncate200 (description it)) as [|c r] eqn:Et; [congruence|]. reflexivity.
Qed.

Lemma env_tab_shows_description_witness :
  Forall (fun n => description (base n) <> [] ->
                   (true = false \/
                    exists e1 e2,
                      failing_gen "gemini-2.5-flash-lite" (title (base n)) (description (base n)) = inr e1 /\
                      failing_gen "gemini-2.5-flash" (title (base n)) (description (base n)) = inr e2) ->
                   env_news_shown n = Resumen (truncate200 (description (base n))))
    (get_env_news true failing_gen None true [sample_entry 65]).
Proof. apply (proj2 (env_tab_shows_description true failing_gen None [sample_entry 65])). Defined.

(** The Chivas tab: with AI off every description is shown cut at 200
    characters and followed by "...", even a short one; with AI on, an
    item on which both models raised shows the local error message
    "Error resumiendo noticia: <error of the second model>" under the
    "Resumen" label. *)
Theorem chivas_tab_display (gen : generator) (max_items : option Z) (entries : list rss_entry) :
  Forall (fun n => chivas_news_shown n = Descripcion (firstn 200 (description (base n)) ++ u "..."))
    (get_chivas_news gen max_items false entries) /\
  Forall (fun n => forall e1 e2,
            gen "gemini-2.5-flash-lite" (title (base n)) (description (base n)) = inr e1 ->
            gen "gemini-2.5-flash" (title (base n)) (description (base n)) = inr e2 ->
            chivas_news_shown n = Resumen (u "Error resumiendo noticia: " ++ e2))
    (get_chivas_news gen max_items true entries).
Proof.
  unfold get_chivas_news, Chivas.get_news. split.
  - destruct (get_chivas_news_rss max_items entries) as [|x xs]; [constructor|].
    apply List.Forall_forall. intros n Hn. apply in_map_iff in Hn as [it [<- _]]. reflexivity.
  - destruct (get_chivas_news_rss max_items entries) as [|x xs]; [constructor|].
    unfold Chivas.process_all. cbn [negb].
    apply List.Forall_forall. intros n Hn. apply in_map_iff in Hn as [it [<- _]].
    intros e1 e2 G1 G2.
    unfold chivas_news_shown, Chivas.process, Chivas.resumir in *. cbn [ai_summary processed base] in *.
    rewrite G1, G2. reflexivity.
Qed.

(** Witness: two items whose model calls raise with different messages
    for each item and each model. *)
Lemma chivas_tab_display_witness :
  map chivas_news_shown
      (get_chivas_news (fun m t d => inr (u m ++ [32] ++ t)) None true [sample_entry 65; sample_entry 66]) =
    map (fun n => Resumen (u "Error resumiendo noticia: " ++ u "gemini-2.5-flash" ++ [32] ++ title (base n)))
      (get_chivas_news (fun m t d => inr (u m ++ [32] ++ t)) None true [sample_entry 65; sample_entry 66]).
Proof.
  apply map_ext_Forall.
  eapply Forall_impl;
    [apply (proj2 (chivas_tab_display (fun m t d => inr (u m ++ [32] ++ t)) None
                     [sample_entry 65; sample_entry 66]))|].
  intros n H. apply (H _ _ eq_refl eq_refl).
Defined.
